(** * The cnn_graph usage notebook (src/cnn_graph/usage.ipynb)

    The notebook is a script: it draws a synthetic data set, thresholds a
    noisy target into three classes, splits the samples, and then drives the
    external modules [graph], [coarsening] and [models].  The development
    embeds its code cells, in order, as one monadic program over an
    interface of the external libraries, and studies the values the script
    binds and the calls it performs. *)

From stdpp Require Import base list strings gmap numbers sorting.
From Stdlib Require Import QArith Qabs Lqa.

Open Scope Z_scope.

(** ** NumPy scalars and the numeric functions the script calls

    The floating-point functions of NumPy are external to the notebook.
    They are an interface: [F] stands for the float scalars (the [float32]
    entries of [X] and the [float64] entries of [t] alike). *)

Class Numpy := {
  F : Type;
  flit : Q → F;                      (* a decimal literal such as [0.4] *)
  fadd : F → F → F;                  (* [a + b] *)
  fsub : F → F → F;                  (* [a - b] *)
  fmul : F → F → F;                  (* [a * b] *)
  fltb : F → F → bool;               (* [a < b]; [a > b] is [fltb b a] *)
  fleb : F → F → bool;               (* [a <= b] *)
  ftanh : F → F;                     (* [np.tanh] on one entry *)
  f32 : F → F;                       (* [.astype(np.float32)] on one entry *)
  np_linspace : F → F → Z → list F;  (* [np.linspace(start, stop, num)] *)
  np_vdot : list F → list F → F;     (* one entry of [X.dot(w)] *)
  np_mean : list F → F;              (* [t.mean()] *)
  np_std : list F → F;               (* [t.std()] *)
  np_T : list (list F) → list (list F)   (* [X.T] *)
}.

(** What the development uses of the order of floats and of [t.std()].
    Finite floats obey these laws, rounding being monotone; [t.std()] is a
    square root, hence not negative. *)
Class NumpyLaws `{Numpy} : Prop := {
  fle_trans a b c : fleb a b = true → fleb b c = true → fleb a c = true;
  flt_le_trans a b c : fltb a b = true → fleb b c = true → fltb a c = true;
  flt_le a b : fltb a b = true → fleb a b = true;
  flt_not_le a b : fltb a b = true → fleb b a = true → False;
  fadd_nonneg_r m c : fleb (flit 0) c = true → fleb m (fadd m c) = true;
  fsub_nonneg_r m c : fleb (flit 0) c = true → fleb (fsub m c) m = true;
  fmul_nonneg a b :
    fleb (flit 0) a = true → fleb (flit 0) b = true →
    fleb (flit 0) (fmul a b) = true;
  flit_nonneg q : (0 <= q)%Q → fleb (flit 0) (flit q) = true;
  np_std_nonneg t : fleb (flit 0) (np_std t) = true
}.

(** ** Python and NumPy operations on lists *)

Module Py.

(** [l[start:stop]] with Python's rules: a negative bound counts from the
    end, every bound is clamped to [0, len], and the slice is empty when
    the bounds cross. *)
Definition clamp_index (len i : Z) : Z :=
  let i' := if i <? 0 then i + len else i in
  Z.max 0 (Z.min len i').

Definition slice {A} (start stop : option Z) (l : list A) : list A :=
  let len := Z.of_nat (length l) in
  let s := from_option (clamp_index len) 0 start in
  let e := from_option (clamp_index len) len stop in
  drop (Z.to_nat s) (take (Z.to_nat e) l).

(** A value stored in a [uint8] array. *)
Definition uint8 (z : Z) : Z := z mod 256.

(** [np.ones(shape, dtype=np.uint8)] for a one-dimensional shape. *)
Definition np_ones (shape : nat) : list Z := replicate shape 1.

(** [y[mask] = v] for a boolean mask of the shape of [y]. *)
Definition setitem_mask (y : list Z) (mask : list bool) (v : Z) : list Z :=
  zip_with (λ yi (b : bool), if b then uint8 v else yi) y mask.

(** [np.unique(y)]: the sorted distinct values of [y]. *)
Fixpoint insert_unique (x : Z) (l : list Z) : list Z :=
  match l with
  | [] => [x]
  | h :: tl =>
      if x <? h then x :: l
      else if x =? h then l
      else h :: insert_unique x tl
  end.

Definition np_unique (y : list Z) : list Z := foldr insert_unique [] y.

(** [np.unique(y, return_counts=True)[1]]. *)
Definition np_unique_counts (y : list Z) : list nat :=
  map (λ v, length (filter (λ x, x = v) y)) (np_unique y).

(** [v.repeat(k)]: every entry [k] times. *)
Definition np_repeat {A} (v : list A) (k : Z) : list A :=
  flat_map (λ x, replicate (Z.to_nat k) x) v.

End Py.

(** ** Values of the parameter dictionary *)

Inductive pyval :=
| PStr (s : string)
| PInt (z : Z)
| PFloat (q : Q)
| PList (l : list Z).

(** ** The external modules

    A call into [lib.graph], [lib.coarsening] or [lib.models] either
    returns a value or raises. *)

Inductive outcome (A : Type) :=
| Returned (a : A)
| Raises (msg : string).
Arguments Returned {A} a.
Arguments Raises {A} msg.

(** [from lib import models, graph, coarsening, utils]: a [Lib] packs what
    the script uses of the first three, and of the sparse matrices they
    return.  The fourth module is a parameter of the notebook itself. *)
Record Lib `{Numpy} := {
  dist_t : Type;      (* the sorted k-nearest distances *)
  idx_t : Type;       (* the indices of the k nearest neighbours *)
  sparse : Type;      (* scipy sparse matrices: adjacencies and Laplacians *)
  perm_t : Type;      (* the vertex reordering found by the coarsening *)
  model_t : Type;     (* a [models.cgcnn] object *)
  curve_t : Type;     (* the accuracy and loss histories *)
  res_t : Type;       (* what [model.evaluate] returns *)
  (* lib.graph *)
  distance_scipy_spatial :
    list (list F) → Z → string → outcome (dist_t * idx_t);
  adjacency : dist_t → idx_t → outcome sparse;
  laplacian : sparse → bool → outcome sparse;
  plot_spectrum : list sparse → outcome unit;
  (* scipy.sparse *)
  astype_float32 : sparse → sparse;
  shape : sparse → Z * Z;
  nnz : sparse → Z;
  (* lib.coarsening *)
  coarsen : sparse → Z → bool → outcome (list sparse * perm_t);
  perm_data : list (list F) → perm_t → outcome (list (list F));
  (* lib.models *)
  cgcnn : list sparse → gmap string pyval → outcome model_t;
  fit :
    model_t → list (list F) → list Z → list (list F) → list Z →
    outcome (curve_t * curve_t * F);
  evaluate : model_t → list (list F) → list Z → outcome res_t;
  res_item0 : res_t → string   (* [res[0]] *)
}.

(** The three samples of [np.random.normal], in the order the script draws
    them: [(n, d)] entries for [X], [d] for [w] and [n] for the noise. *)
Record draws `{Numpy} := {
  draw_X : list (list F);
  draw_w : list F;
  draw_noise : list F
}.

(** ** Calls, exceptions and the script monad *)

Inductive axes := Ax1 | Ax2.

Inductive assert_site :=
| AssertShape      (* [assert A.shape == (d, d)] *)
| AssertClasses.   (* [assert C == np.unique(y).size] *)

Inductive exn :=
| AssertionError (site : assert_site)
| ValueError                 (* [y.max()] of an empty array *)
| KeyError (key : string)    (* [params[key]] for an absent key *)
| TypeError                  (* [/] on a value that is not a number *)
| ZeroDivisionError
| LibError (msg : string).   (* raised inside an external module *)

Inductive result (A : Type) :=
| Ok (a : A)
| Err (e : exn).
Arguments Ok {A} a.
Arguments Err {A} e.

Section Script.
Context `{Numpy} {lib : Lib}.

Local Abbreviation matrix := (list (list F)).
Local Abbreviation params_t := (gmap string pyval).

(** Every call the script makes to something outside of it, with the
    arguments it passes. *)
Inductive call :=
| PltFigure (figsize : Z * Z)
| PltPlot (t : list F) (fmt : string)
| PrintClassImbalance (counts : list nat)
| GraphDistanceScipySpatial (X : matrix) (k : Z) (metric : string)
| GraphAdjacency (dist : dist_t lib) (idx : idx_t lib)
| PrintGraphSize (d : Z) (nnz : Z)
| PltSpy (A : sparse lib) (markersize : Z) (color : string)
| CoarseningCoarsen (A : sparse lib) (levels : Z) (self_connections : bool)
| CoarseningPermData (X : matrix) (perm : perm_t lib)
| GraphLaplacian (A : sparse lib) (normalized : bool)
| GraphPlotSpectrum (L : list (sparse lib))
| ModelsCgcnn (L : list (sparse lib)) (params : params_t)
| ModelFit (model : model_t lib)
    (X_train : matrix) (y_train : list Z) (X_val : matrix) (y_val : list Z)
| PltSubplots (figsize : Z * Z)
| AxPlot (ax : axes) (curve : curve_t lib) (fmt : string)
| AxSetYlabel (ax : axes) (label color : string)
| AxTwinx (ax : axes)
| PltShow
| PrintTimePerStep (ms : F)
| ModelEvaluate (model : model_t lib) (X_test : matrix) (y_test : list Z)
| PrintRes0 (s : string).

(** A performed call, and the message of the exception it raised if any. *)
Record event := Ev { ev_call : call; ev_raised : option string }.

(** The script monad: the calls performed so far, and a value or the
    exception that stopped the script. *)
Definition M (A : Type) : Type := list event * result A.

Definition ret {A} (a : A) : M A := ([], Ok a).

Definition bind {A B} (m : M A) (f : A → M B) : M B :=
  match m with
  | (tr, Ok a) => let '(tr', r) := f a in (tr ++ tr', r)
  | (tr, Err e) => (tr, Err e)
  end.

Definition raise {A} (e : exn) : M A := ([], Err e).

(** A call into an external module. *)
Definition invoke {A} (c : call) (o : outcome A) : M A :=
  match o with
  | Returned a => ([Ev c None], Ok a)
  | Raises msg => ([Ev c (Some msg)], Err (LibError msg))
  end.

(** Printing and plotting: calls that return nothing the script uses and
    are taken not to raise. *)
Definition output (c : call) : M unit := ([Ev c None], Ok tt).

(** [assert b]. *)
Definition py_assert (site : assert_site) (b : bool) : M unit :=
  if b then ret tt else raise (AssertionError site).

(** [params[key]]. *)
Definition getitem (params : params_t) (key : string) : M pyval :=
  match params !! key with
  | Some v => ret v
  | None => raise (KeyError key)
  end.

(** [y.max()]. *)
Definition np_max (y : list Z) : M Z :=
  match y with
  | [] => raise ValueError
  | x :: l => ret (foldl Z.max x l)
  end.

Local Notation "x ← m ; k" := (bind m (λ x, k))
  (at level 20, m at level 100, k at level 200, only parsing).
Local Notation "' pat ← m ; k" := (bind m (λ x, let 'pat := x in k))
  (at level 20, pat pattern, m at level 100, k at level 200, only parsing).
Local Notation "m ;; k" := (bind m (λ _, k))
  (at level 100, k at level 200, right associativity, only parsing).

(** [[f(a) for a in l]]. *)
Fixpoint comprehension {A B} (f : A → M B) (l : list A) : M (list B) :=
  match l with
  | [] => ret []
  | a :: l' => b ← f a; bs ← comprehension f l'; ret (b :: bs)
  end.

(** ** The code cells *)

Definition d : Z := 100.     (* Dimensionality. *)
Definition n : Z := 10000.   (* Number of samples. *)
Definition c : Z := 5.       (* Number of feature communities. *)

(** [y[t > hi] = 0] and [y[t < lo] = 2] on an array of ones. *)
Definition classify (t : list F) : list Z :=
  let y := Py.np_ones (length t) in
  let y :=
    Py.setitem_mask y
      (map (λ x, fltb (fadd (np_mean t) (fmul (flit 0.4) (np_std t))) x) t)
      0 in
  let y :=
    Py.setitem_mask y
      (map (λ x, fltb x (fsub (np_mean t) (fmul (flit 0.4) (np_std t)))) t)
      2 in
  y.

Record data := {
  X : matrix;
  w : list F;
  t : list F;
  y : list Z
}.

(** Cell 2: the data matrix, the noisy non-linear target and the labels. *)
Definition cell_data (r : draws) : M data :=
  let X := map (map f32) (draw_X r) in
  let X :=
    let v := Py.np_repeat (np_linspace (flit 0) (flit 1) c) (d / c) in
    map (λ row, zip_with (λ a b, f32 (fadd a b)) row v) X in
  let w := draw_w r in
  let t := zip_with fadd (map (λ row, np_vdot row w) X) (draw_noise r) in
  let t := map ftanh t in
  output (PltFigure (15, 5));;
  output (PltPlot t ".");;
  let y := classify t in
  output (PrintClassImbalance (Py.np_unique_counts y));;
  ret {| X := X; w := w; t := t; y := y |}.

Definition n_train : Z := n / 2.
Definition n_val : Z := n / 10.

Record split := {
  X_train : matrix;
  X_val : matrix;
  X_test : matrix;
  y_train : list Z;
  y_val : list Z;
  y_test : list Z
}.

(** Cell 3: training, validation and testing sets. *)
Definition cell_split (X : matrix) (y : list Z) : split :=
  {| X_train := Py.slice None (Some n_train) X;
     X_val := Py.slice (Some n_train) (Some (n_train + n_val)) X;
     X_test := Py.slice (Some (n_train + n_val)) None X;
     y_train := Py.slice None (Some n_train) y;
     y_val := Py.slice (Some n_train) (Some (n_train + n_val)) y;
     y_test := Py.slice (Some (n_train + n_val)) None y |}.

Definition pair_eqb (a b : Z * Z) : bool :=
  (a.1 =? b.1) && (a.2 =? b.2).

Record knn := {
  dist : dist_t lib;
  idx : idx_t lib;
  A : sparse lib
}.

(** Cell 4: the feature graph. *)
Definition cell_graph (X_train : matrix) : M knn :=
  '(dist, idx) ←
    invoke (GraphDistanceScipySpatial (np_T X_train) 10 "euclidean")
      (distance_scipy_spatial lib (np_T X_train) 10 "euclidean");
  A0 ← invoke (GraphAdjacency dist idx) (adjacency lib dist idx);
  let A := astype_float32 lib A0 in
  py_assert AssertShape (pair_eqb (shape lib A) (d, d));;
  output (PrintGraphSize d (nnz lib A));;
  output (PltSpy A 2 "black");;
  ret {| dist := dist; idx := idx; A := A |}.

Record pyramid := {
  graphs : list (sparse lib);
  perm : perm_t lib;
  perm_X_train : matrix;    (* [X_train], rebound *)
  perm_X_val : matrix;      (* [X_val], rebound *)
  perm_X_test : matrix      (* [X_test], rebound *)
}.

(** Cell 5: coarsening, and the data rearranged for pooling. *)
Definition cell_coarsen (A : sparse lib) (s : split) : M pyramid :=
  '(graphs, perm) ←
    invoke (CoarseningCoarsen A 3 false) (coarsen lib A 3 false);
  X_train ←
    invoke (CoarseningPermData (X_train s) perm)
      (perm_data lib (X_train s) perm);
  X_val ←
    invoke (CoarseningPermData (X_val s) perm) (perm_data lib (X_val s) perm);
  X_test ←
    invoke (CoarseningPermData (X_test s) perm) (perm_data lib (X_test s) perm);
  ret {| graphs := graphs; perm := perm; perm_X_train := X_train;
         perm_X_val := X_val; perm_X_test := X_test |}.

(** Cell 6: one Laplacian per graph. *)
Definition cell_laplacian (graphs : list (sparse lib)) :
    M (list (sparse lib)) :=
  L ← comprehension
        (λ A, invoke (GraphLaplacian A true) (laplacian lib A true)) graphs;
  invoke (GraphPlotSpectrum L) (plot_spectrum lib L);;
  ret L.

(** [a / v] for a Python integer [a]: true division, a float. *)
Definition truediv (a : Z) (v : pyval) : M pyval :=
  match v with
  | PInt b =>
      if b =? 0 then raise ZeroDivisionError
      else ret (PFloat (inject_Z a / inject_Z b))
  | PFloat q =>
      if Qeq_bool q 0 then raise ZeroDivisionError
      else ret (PFloat (inject_Z a / q))
  | _ => raise TypeError
  end.

Record hyper := {
  C : Z;
  params : params_t
}.

(** Cell 7: the hyper-parameters. *)
Definition cell_params (y : list Z) : M hyper :=
  let params : params_t := ∅ in
  let params := <["dir_name" := PStr "demo"]> params in
  let params := <["num_epochs" := PInt 40]> params in
  let params := <["batch_size" := PInt 100]> params in
  let params := <["eval_frequency" := PInt 200]> params in
  let params := <["filter" := PStr "chebyshev5"]> params in
  let params := <["brelu" := PStr "b1relu"]> params in
  let params := <["pool" := PStr "apool1"]> params in
  ymax ← np_max y;
  let C := ymax + 1 in   (* no wrap-around: the labels are at most 2 *)
  py_assert AssertClasses (C =? Z.of_nat (length (Py.np_unique y)));;
  let params := <["F" := PList [32; 64]]> params in
  let params := <["K" := PList [20; 20]]> params in
  let params := <["p" := PList [4; 2]]> params in
  let params := <["M" := PList [512; C]]> params in
  let params := <["regularization" := PFloat 5e-4]> params in
  let params := <["dropout" := PInt 1]> params in
  let params := <["learning_rate" := PFloat 1e-3]> params in
  let params := <["decay_rate" := PFloat 0.95]> params in
  let params := <["momentum" := PFloat 0.9]> params in
  batch_size ← getitem params "batch_size";
  decay_steps ← truediv n_train batch_size;
  let params := <["decay_steps" := decay_steps]> params in
  ret {| C := C; params := params |}.

Record trained := {
  model : model_t lib;
  accuracy : curve_t lib;
  loss : curve_t lib;
  t_step : F
}.

(** Cell 8: the model and its training. *)
Definition cell_fit (L : list (sparse lib)) (params : params_t)
    (X_train : matrix) (y_train : list Z) (X_val : matrix) (y_val : list Z) :
    M trained :=
  model ← invoke (ModelsCgcnn L params) (cgcnn lib L params);
  '(accuracy, loss, t_step) ←
    invoke (ModelFit model X_train y_train X_val y_val)
      (fit lib model X_train y_train X_val y_val);
  ret {| model := model; accuracy := accuracy; loss := loss;
         t_step := t_step |}.

(** Cell 9: the convergence curves. *)
Definition cell_curves (accuracy loss : curve_t lib) : M unit :=
  output (PltSubplots (15, 5));;
  output (AxPlot Ax1 accuracy "b.-");;
  output (AxSetYlabel Ax1 "validation accuracy" "b");;
  output (AxTwinx Ax1);;
  output (AxPlot Ax2 loss "g.-");;
  output (AxSetYlabel Ax2 "training loss" "g");;
  output PltShow.

(** Cell 10. *)
Definition cell_time (t_step : F) : M unit :=
  output (PrintTimePerStep (fmul t_step (flit 1000))).

(** Cell 11: the testing set. *)
Definition cell_evaluate (model : model_t lib) (X_test : matrix)
    (y_test : list Z) : M (res_t lib) :=
  res ← invoke (ModelEvaluate model X_test y_test)
          (evaluate lib model X_test y_test);
  output (PrintRes0 (res_item0 lib res));;
  ret res.

(** Everything the script has bound when it ends. *)
Record env := {
  e_data : data;
  e_split : split;
  e_knn : knn;
  e_pyramid : pyramid;
  L : list (sparse lib);
  e_hyper : hyper;
  e_trained : trained;
  res : res_t lib
}.

(** The notebook: its code cells in order.  Cell 1 imports the modules;
    [utils] is the last of them. *)
Definition notebook {U : Type} (utils : U) (r : draws) : M env :=
  dt ← cell_data r;
  let s := cell_split (X dt) (y dt) in
  g ← cell_graph (X_train s);
  p ← cell_coarsen (A g) s;
  L ← cell_laplacian (graphs p);
  h ← cell_params (y dt);
  m ← cell_fit L (params h) (perm_X_train p) (y_train s) (perm_X_val p)
        (y_val s);
  cell_curves (accuracy m) (loss m);;
  cell_time (t_step m);;
  res ← cell_evaluate (model m) (perm_X_test p) (y_test s);
  ret {| e_data := dt; e_split := s; e_knn := g; e_pyramid := p; L := L;
         e_hyper := h; e_trained := m; res := res |}.

End Script.

Arguments call {_} lib.
Arguments event {_} lib.
Arguments M {_} lib A.
Arguments env {_} lib.
Arguments knn {_} lib.
Arguments pyramid {_} lib.
Arguments trained {_} lib.
Arguments notebook {_} lib {U} utils r.
Arguments cell_data {_} lib r.
Arguments cell_params {_} lib y.
Arguments Py.slice : simpl never.
Arguments classify : simpl never.
Arguments cell_split : simpl never.

(** ** Vocabulary for the runs of the script *)

Section Vocabulary.
Context `{Numpy} {lib : Lib}.

Local Abbreviation matrix := (list (list F)).

Definition returned (c : call lib) : event lib := Ev c None.

(** The calls of each cell when nothing raises, read off the values the
    cell binds. *)
Definition data_trace (dt : data) : list (event lib) :=
  [ returned (PltFigure (15, 5));
    returned (PltPlot (t dt) ".");
    returned (PrintClassImbalance (Py.np_unique_counts (y dt))) ].

Definition graph_trace (s : split) (g : knn lib) : list (event lib) :=
  [ returned (GraphDistanceScipySpatial (np_T (X_train s)) 10 "euclidean");
    returned (GraphAdjacency (dist g) (idx g));
    returned (PrintGraphSize d (nnz lib (A g)));
    returned (PltSpy (A g) 2 "black") ].

Definition coarsen_trace (s : split) (g : knn lib) (p : pyramid lib) :
    list (event lib) :=
  [ returned (CoarseningCoarsen (A g) 3 false);
    returned (CoarseningPermData (X_train s) (perm p));
    returned (CoarseningPermData (X_val s) (perm p));
    returned (CoarseningPermData (X_test s) (perm p)) ].

Definition laplacian_trace (p : pyramid lib) (L : list (sparse lib)) :
    list (event lib) :=
  map (λ A, returned (GraphLaplacian A true)) (graphs p)
  ++ [ returned (GraphPlotSpectrum L) ].

Definition fit_trace (s : split) (p : pyramid lib) (L : list (sparse lib))
    (h : hyper) (m : trained lib) : list (event lib) :=
  [ returned (ModelsCgcnn L (params h));
    returned (ModelFit (model m) (perm_X_train p) (y_train s)
                (perm_X_val p) (y_val s)) ].

Definition curves_trace (m : trained lib) : list (event lib) :=
  [ returned (PltSubplots (15, 5));
    returned (AxPlot Ax1 (accuracy m) "b.-");
    returned (AxSetYlabel Ax1 "validation accuracy" "b");
    returned (AxTwinx Ax1);
    returned (AxPlot Ax2 (loss m) "g.-");
    returned (AxSetYlabel Ax2 "training loss" "g");
    returned PltShow ].

Definition time_trace (m : trained lib) : list (event lib) :=
  [ returned (PrintTimePerStep (fmul (t_step m) (flit 1000))) ].

Definition evaluate_trace (s : split) (p : pyramid lib) (m : trained lib)
    (res : res_t lib) : list (event lib) :=
  [ returned (ModelEvaluate (model m) (perm_X_test p) (y_test s));
    returned (PrintRes0 (res_item0 lib res)) ].

Definition trace_of (e : env lib) : list (event lib) :=
  data_trace (e_data e)
  ++ graph_trace (e_split e) (e_knn e)
  ++ coarsen_trace (e_split e) (e_knn e) (e_pyramid e)
  ++ laplacian_trace (e_pyramid e) (L e)
  ++ fit_trace (e_split e) (e_pyramid e) (L e) (e_hyper e) (e_trained e)
  ++ curves_trace (e_trained e)
  ++ time_trace (e_trained e)
  ++ evaluate_trace (e_split e) (e_pyramid e) (e_trained e) (res e).

(** What the external modules answered, and what the assertions checked,
    in a run that ends with the bindings [e]. *)
Record completes (r : draws) (e : env lib) : Prop := {
  c_data : (cell_data lib r).2 = Ok (e_data e);
  c_split : e_split e = cell_split (X (e_data e)) (y (e_data e));
  c_distance :
    distance_scipy_spatial lib (np_T (X_train (e_split e))) 10 "euclidean"
    = Returned (dist (e_knn e), idx (e_knn e));
  c_adjacency :
    ∃ A0, adjacency lib (dist (e_knn e)) (idx (e_knn e)) = Returned A0
          ∧ A (e_knn e) = astype_float32 lib A0;
  c_shape : shape lib (A (e_knn e)) = (d, d);
  c_coarsen :
    coarsen lib (A (e_knn e)) 3 false
    = Returned (graphs (e_pyramid e), perm (e_pyramid e));
  c_perm_train :
    perm_data lib (X_train (e_split e)) (perm (e_pyramid e))
    = Returned (perm_X_train (e_pyramid e));
  c_perm_val :
    perm_data lib (X_val (e_split e)) (perm (e_pyramid e))
    = Returned (perm_X_val (e_pyramid e));
  c_perm_test :
    perm_data lib (X_test (e_split e)) (perm (e_pyramid e))
    = Returned (perm_X_test (e_pyramid e));
  c_laplacian :
    Forall2 (λ A La, laplacian lib A true = Returned La)
      (graphs (e_pyramid e)) (L e);
  c_spectrum : plot_spectrum lib (L e) = Returned ();
  c_params : (cell_params lib (y (e_data e))).2 = Ok (e_hyper e);
  c_cgcnn :
    cgcnn lib (L e) (params (e_hyper e)) = Returned (model (e_trained e));
  c_fit :
    fit lib (model (e_trained e)) (perm_X_train (e_pyramid e))
      (y_train (e_split e)) (perm_X_val (e_pyramid e)) (y_val (e_split e))
    = Returned (accuracy (e_trained e), loss (e_trained e),
                t_step (e_trained e));
  c_evaluate :
    evaluate lib (model (e_trained e)) (perm_X_test (e_pyramid e))
      (y_test (e_split e))
    = Returned (res e)
}.

(** [after tr0 m Q]: when [m] runs after the calls [tr0], the calls made
    so far and the outcome of [m] satisfy [Q]. *)
Definition after {T} (tr0 : list (event lib)) (m : M lib T)
    (Q : list (event lib) → result T → Prop) : Prop :=
  Q (tr0 ++ m.1) m.2.

(** No call of the trace raised. *)
Definition quiet (tr : list (event lib)) : Prop :=
  Forall (λ ev, ev_raised ev = None) tr.

End Vocabulary.

(** ** Kinds of calls and the modules they belong to *)

Inductive kind :=
| KPltFigure | KPltPlot | KPrint
| KDistance | KAdjacency | KPltSpy
| KCoarsen | KPermData
| KLaplacian | KPlotSpectrum
| KCgcnn | KFit
| KPltSubplots | KAxPlot | KAxSetYlabel | KAxTwinx | KPltShow
| KEvaluate.

#[global] Instance kind_eq_dec : EqDecision kind.
Proof. solve_decision. Defined.

Definition kind_of `{Numpy} {lib : Lib} (c : call lib) : kind :=
  match c with
  | PltFigure _ => KPltFigure
  | PltPlot _ _ => KPltPlot
  | PrintClassImbalance _ => KPrint
  | GraphDistanceScipySpatial _ _ _ => KDistance
  | GraphAdjacency _ _ => KAdjacency
  | PrintGraphSize _ _ => KPrint
  | PltSpy _ _ _ => KPltSpy
  | CoarseningCoarsen _ _ _ => KCoarsen
  | CoarseningPermData _ _ => KPermData
  | GraphLaplacian _ _ => KLaplacian
  | GraphPlotSpectrum _ => KPlotSpectrum
  | ModelsCgcnn _ _ => KCgcnn
  | ModelFit _ _ _ _ _ => KFit
  | PltSubplots _ => KPltSubplots
  | AxPlot _ _ _ => KAxPlot
  | AxSetYlabel _ _ _ => KAxSetYlabel
  | AxTwinx _ => KAxTwinx
  | PltShow => KPltShow
  | PrintTimePerStep _ => KPrint
  | ModelEvaluate _ _ _ => KEvaluate
  | PrintRes0 _ => KPrint
  end.

(** Where each callee lives: the three modules imported from [lib], the
    fourth one, [matplotlib.pyplot], and Python's builtins. *)
Inductive module := Graph | Coarsening | Models | Utils | Pyplot | Builtins.

#[global] Instance module_eq_dec : EqDecision module.
Proof. solve_decision. Defined.

Definition module_of (k : kind) : module :=
  match k with
  | KDistance | KAdjacency | KLaplacian | KPlotSpectrum => Graph
  | KCoarsen | KPermData => Coarsening
  | KCgcnn | KFit | KEvaluate => Models
  | KPltFigure | KPltPlot | KPltSpy | KPltSubplots | KAxPlot | KAxSetYlabel
  | KAxTwinx | KPltShow => Pyplot
  | KPrint => Builtins
  end.

(** The calls of one kind, in the order they were made. *)
Definition calls_of `{Numpy} {lib : Lib} (k : kind) (tr : list (event lib)) :
    list (event lib) :=
  filter (λ ev, kind_of (ev_call ev) = k) tr.

(** The kinds of the calls of a trace. *)
Definition kinds `{Numpy} {lib : Lib} (tr : list (event lib)) : list kind :=
  map (λ ev, kind_of (ev_call ev)) tr.

(** The one sequence of calls of the notebook, for a pyramid of [k] graphs. *)
Definition pipeline (k : nat) : list kind :=
  [KPltFigure; KPltPlot; KPrint]
  ++ [KDistance; KAdjacency; KPrint; KPltSpy]
  ++ [KCoarsen; KPermData; KPermData; KPermData]
  ++ (replicate k KLaplacian ++ [KPlotSpectrum])
  ++ [KCgcnn; KFit]
  ++ [KPltSubplots; KAxPlot; KAxSetYlabel; KAxTwinx; KAxPlot; KAxSetYlabel;
      KPltShow]
  ++ [KPrint]
  ++ [KEvaluate; KPrint].

(** ** A rational instance of the interfaces

    Exact rational arithmetic for the scalars, and a library whose graphs
    are known by their shape only.  The script runs on it by computation. *)

Module Qmodel.

Definition Qltb (a b : Q) : bool := negb (Qle_bool b a).

Definition Qsum (l : list Q) : Q := foldr (λ a b, Qred (a + b)) 0%Q l.

Definition Qmean (l : list Q) : Q :=
  Qred (Qsum l / inject_Z (Z.of_nat (length l))).

(** The mean absolute deviation: a spread that is rational. *)
Definition Qspread (l : list Q) : Q :=
  Qabs (Qmean (map (λ x, Qabs (x - Qmean l)) l)).

Definition transpose (X : list (list Q)) : list (list Q) :=
  match X with
  | [] => []
  | r :: _ => map (λ j, map (λ row, nth j row 0%Q) X) (seq 0 (length r))
  end.

Definition linspace (start stop : Q) (num : Z) : list Q :=
  map (λ i, Qred (start + (stop - start)
                              * (inject_Z (Z.of_nat i) / inject_Z (num - 1))))
    (seq 0 (Z.to_nat num)).

#[export] Instance numpy : Numpy := {|
  F := Q;
  flit q := q;
  fadd a b := Qred (a + b);
  fsub a b := Qred (a - b);
  fmul a b := Qred (a * b);
  fltb := Qltb;
  fleb := Qle_bool;
  ftanh x := Qred (x / (1 + Qabs x));
  f32 x := x;
  np_linspace := linspace;
  np_vdot a b := Qsum (zip_with (λ x y, Qred (x * y)) a b);
  np_mean := Qmean;
  np_std := Qspread;
  np_T := transpose
|}.

Definition lib : Lib := {|
  dist_t := Z;
  idx_t := Z;
  sparse := Z * Z;
  perm_t := Z;
  model_t := nat;
  curve_t := list Q;
  res_t := string;
  distance_scipy_spatial X k metric := Returned (Z.of_nat (length X), k);
  adjacency dist idx := Returned (dist, dist);
  laplacian A normalized := Returned A;
  plot_spectrum L := Returned ();
  astype_float32 A := A;
  shape A := A;
  nnz A := 0;
  coarsen A levels self_connections :=
    Returned (map (λ i, (A.1 / 2 ^ Z.of_nat i, A.2 / 2 ^ Z.of_nat i))
                (seq 0 (S (Z.to_nat levels))), A.1);
  perm_data X perm := Returned X;
  cgcnn L params := Returned (length L);
  fit model X_train y_train X_val y_val := Returned ([], [], 0%Q);
  evaluate model X_test y_test := Returned "accuracy";
  res_item0 res := res
|}.

(** Four samples of a hundred features. *)
Definition sample : draws := {|
  draw_X := map (λ i, replicate 100 (inject_Z i)) [0; 1; 2; 3];
  draw_w := replicate 100 (1 # 100)%Q;
  draw_noise := replicate 4 0%Q
|}.

(** What cell 2 binds on these samples. *)
Definition sample_data : data :=
  match (cell_data lib sample).2 with
  | Ok dt => dt
  | Err _ => {| X := []; w := []; t := []; y := [] |}
  end.

(** What the whole notebook binds on these samples. *)
Definition sample_env : env lib :=
  match (notebook lib () sample).2 with
  | Ok e => e
  | Err _ =>
      Build_env (lib := lib) sample_data (cell_split [] [])
        (Build_knn (lib := lib) 0 0 (0, 0))
        (Build_pyramid (lib := lib) [] 0 [] [] [])
        []
        {| C := 0; params := ∅ |}
        (Build_trained (lib := lib) 0%nat [] [] 0%Q)
        "unreached"
  end.

Definition sample_trace : list (event lib) := (notebook lib () sample).1.

(** Samples of the size the script asks for. *)
Definition full_sample : draws := {|
  draw_X := replicate (Z.to_nat 10000) (replicate 100 0%Q);
  draw_w := replicate 100 (1 # 100)%Q;
  draw_noise := replicate (Z.to_nat 10000) 0%Q
|}.

Definition full_data : data :=
  match (cell_data lib full_sample).2 with
  | Ok dt => dt
  | Err _ => {| X := []; w := []; t := []; y := [] |}
  end.

(** Two equal samples: every target is the mean, so every label is 1 and
    the class-count check of cell 7 fails. *)
Definition flat_sample : draws := {|
  draw_X := replicate 2 (replicate 100 0%Q);
  draw_w := replicate 100 (1 # 100)%Q;
  draw_noise := replicate 2 0%Q
|}.

(** The same library, with an adjacency of the wrong shape. *)
Definition lib_bad_shape : Lib := {|
  dist_t := Z;
  idx_t := Z;
  sparse := Z * Z;
  perm_t := Z;
  model_t := nat;
  curve_t := list Q;
  res_t := string;
  distance_scipy_spatial X k metric := Returned (Z.of_nat (length X), k);
  adjacency dist idx := Returned (dist, idx);
  laplacian A normalized := Returned A;
  plot_spectrum L := Returned ();
  astype_float32 A := A;
  shape A := A;
  nnz A := 0;
  coarsen A levels self_connections := Returned ([A], A.1);
  perm_data X perm := Returned X;
  cgcnn L params := Returned (length L);
  fit model X_train y_train X_val y_val := Returned ([], [], 0%Q);
  evaluate model X_test y_test := Returned "accuracy";
  res_item0 res := res
|}.

(** Rational scalars with a spread function that breaks the law
    [t.std() >= 0]: it always answers [-1]. *)
Definition numpy_negative_spread : Numpy := {|
  F := Q;
  flit q := q;
  fadd a b := Qred (a + b);
  fsub a b := Qred (a - b);
  fmul a b := Qred (a * b);
  fltb := Qltb;
  fleb := Qle_bool;
  ftanh x := Qred (x / (1 + Qabs x));
  f32 x := x;
  np_linspace := linspace;
  np_vdot a b := Qsum (zip_with (λ x y, Qred (x * y)) a b);
  np_mean := Qmean;
  np_std _ := (-1)%Q;
  np_T := transpose
|}.

(** The same library, whose [graph.laplacian] refuses graphs of fewer than
    twenty vertices. *)
Definition lib_small_graph : Lib := {|
  dist_t := Z;
  idx_t := Z;
  sparse := Z * Z;
  perm_t := Z;
  model_t := nat;
  curve_t := list Q;
  res_t := string;
  distance_scipy_spatial X k metric := Returned (Z.of_nat (length X), k);
  adjacency dist idx := Returned (dist, dist);
  laplacian A normalized :=
    if A.1 <? 20 then Raises "graph too small" else Returned A;
  plot_spectrum L := Returned ();
  astype_float32 A := A;
  shape A := A;
  nnz A := 0;
  coarsen A levels self_connections :=
    Returned (map (λ i, (A.1 / 2 ^ Z.of_nat i, A.2 / 2 ^ Z.of_nat i))
                (seq 0 (S (Z.to_nat levels))), A.1);
  perm_data X perm := Returned X;
  cgcnn L params := Returned (length L);
  fit model X_train y_train X_val y_val := Returned ([], [], 0%Q);
  evaluate model X_test y_test := Returned "accuracy";
  res_item0 res := res
|}.

End Qmodel.

(** * Properties *)

Example slice_prefix : Py.slice None (Some 2) [10; 20; 30; 40] = [10; 20].
Proof. reflexivity. Qed.

Example slice_middle : Py.slice (Some 1) (Some 3) [10; 20; 30; 40] = [20; 30].
Proof. reflexivity. Qed.

Example slice_negative : Py.slice (Some (-1)) None [10; 20; 30; 40] = [40].
Proof. reflexivity. Qed.

Example slice_past_end : Py.slice (Some 3) (Some 9) [10; 20; 30; 40] = [40].
Proof. reflexivity. Qed.

Example unique_sorted : Py.np_unique [2; 0; 1; 2; 0] = [0; 1; 2].
Proof. reflexivity. Qed.

Example unique_counts : Py.np_unique_counts [2; 0; 1; 2; 0] = [2; 1; 2]%nat.
Proof. reflexivity. Qed.

(** ** Slices *)

Section Slices.
Context {T : Type}.
Implicit Types l : list T.

Lemma clamp_index_id len i : 0 ≤ i ≤ len → Py.clamp_index len i = i.
Proof.
  intros Hi. unfold Py.clamp_index.
  destruct (Z.ltb_spec i 0); lia.
Qed.

Lemma slice_to l k :
  0 ≤ k ≤ Z.of_nat (length l) →
  Py.slice None (Some k) l = take (Z.to_nat k) l.
Proof.
  intros Hk. unfold Py.slice. cbn [from_option].
  by rewrite clamp_index_id.
Qed.

Lemma slice_range l a b :
  0 ≤ a ≤ b → b ≤ Z.of_nat (length l) →
  Py.slice (Some a) (Some b) l = take (Z.to_nat (b - a)) (drop (Z.to_nat a) l).
Proof.
  intros Ha Hb. unfold Py.slice. cbn [from_option].
  rewrite !clamp_index_id by lia.
  rewrite take_drop_commute. f_equal. f_equal. lia.
Qed.

Lemma slice_from l a :
  0 ≤ a ≤ Z.of_nat (length l) →
  Py.slice (Some a) None l = drop (Z.to_nat a) l.
Proof.
  intros Ha. unfold Py.slice. cbn [from_option].
  rewrite clamp_index_id by lia. rewrite Nat2Z.id.
  by rewrite firstn_all.
Qed.

(** Three consecutive slices cut a list into three pieces. *)
Lemma three_slices l a b :
  0 ≤ a ≤ b → b ≤ Z.of_nat (length l) →
  Py.slice None (Some a) l ++ Py.slice (Some a) (Some b) l
  ++ Py.slice (Some b) None l = l.
Proof.
  intros Ha Hb.
  rewrite slice_to, slice_range, slice_from by lia.
  replace (drop (Z.to_nat b) l)
    with (drop (Z.to_nat (b - a)) (drop (Z.to_nat a) l)).
  - by rewrite !take_drop.
  - rewrite drop_drop. f_equal. lia.
Qed.

End Slices.

(** ** Labels *)

Section Labels.
Context `{NumpyLaws}.

(** The lower threshold is not above the upper one, because [t.std()] is
    not negative. *)
Lemma thresholds_ordered (t : list F) :
  fleb (fsub (np_mean t) (fmul (flit 0.4) (np_std t)))
    (fadd (np_mean t) (fmul (flit 0.4) (np_std t))) = true.
Proof.
  assert (fleb (flit 0) (fmul (flit 0.4) (np_std t)) = true) as Hc.
  { apply fmul_nonneg; [by apply flit_nonneg|apply np_std_nonneg]. }
  eapply fle_trans; [by apply fsub_nonneg_r|by apply fadd_nonneg_r].
Qed.

(** No entry is both above the upper threshold and below the lower one. *)
Lemma thresholds_exclusive (t : list F) (x : F) :
  fltb (fadd (np_mean t) (fmul (flit 0.4) (np_std t))) x = true →
  fltb x (fsub (np_mean t) (fmul (flit 0.4) (np_std t))) = true →
  False.
Proof.
  intros Hhi Hlo.
  apply (flt_not_le _ x Hhi).
  apply flt_le. eapply flt_le_trans; [exact Hlo|apply thresholds_ordered].
Qed.

End Labels.

Section Classify.
Context `{Numpy}.

(** The label of one sample, whatever the order of floats. *)
Lemma classify_lookup (t : list F) (i : nat) (x : F) :
  t !! i = Some x →
  classify t !! i
  = Some (if fltb x (fsub (np_mean t) (fmul (flit 0.4) (np_std t))) then 2
          else if fltb (fadd (np_mean t) (fmul (flit 0.4) (np_std t))) x then 0
          else 1).
Proof.
  intros Hx. unfold classify, Py.setitem_mask, Py.np_ones.
  rewrite !lookup_zip_with, !list_lookup_fmap, Hx.
  rewrite lookup_replicate_2 by (by eapply lookup_lt_Some).
  cbn [mbind option_bind fmap option_fmap option_map].
  by repeat case_match.
Qed.

Lemma classify_length (t : list F) : length (classify t) = length t.
Proof.
  unfold classify, Py.setitem_mask, Py.np_ones.
  rewrite !length_zip_with, !length_fmap, length_replicate. lia.
Qed.

Lemma classify_range (t : list F) (v : Z) :
  v ∈ classify t → v = 0 ∨ v = 1 ∨ v = 2.
Proof.
  intros (i & Hi)%list_elem_of_lookup.
  assert (i < length t)%nat as Hlt.
  { rewrite <- classify_length. by eapply lookup_lt_Some. }
  destruct (lookup_lt_is_Some_2 _ _ Hlt) as [x Hx].
  rewrite (classify_lookup _ _ _ Hx) in Hi.
  injection Hi as <-. repeat case_match; auto.
Qed.

End Classify.

(** ** Distinct values *)

Lemma elem_of_insert_unique (x v : Z) (l : list Z) :
  v ∈ Py.insert_unique x l ↔ v = x ∨ v ∈ l.
Proof.
  induction l as [|h tl IH]; cbn [Py.insert_unique].
  - by rewrite elem_of_cons.
  - destruct (Z.ltb_spec x h); [by rewrite elem_of_cons|].
    destruct (Z.eqb_spec x h) as [->|]; [rewrite elem_of_cons; tauto|].
    rewrite !elem_of_cons, IH. tauto.
Qed.

Lemma elem_of_np_unique (v : Z) (y : list Z) : v ∈ Py.np_unique y ↔ v ∈ y.
Proof.
  induction y as [|x y IH]; cbn [Py.np_unique foldr]; [done|].
  fold (Py.np_unique y). rewrite elem_of_insert_unique, elem_of_cons, IH. done.
Qed.

Lemma insert_unique_sorted (x : Z) (l : list Z) :
  StronglySorted Z.lt l → StronglySorted Z.lt (Py.insert_unique x l).
Proof.
  induction l as [|h tl IH]; cbn [Py.insert_unique]; intros Hs.
  - repeat constructor.
  - pose proof (StronglySorted_inv Hs) as [Htl Hh].
    destruct (Z.ltb_spec x h).
    + constructor; [done|]. constructor; [done|].
      eapply Forall_impl; [exact Hh|]. intros; cbn in *; lia.
    + destruct (Z.eqb_spec x h) as [->|]; [done|].
      constructor; [by apply IH|].
      apply Forall_forall. intros v [->|Hv]%elem_of_insert_unique; [lia|].
      rewrite Forall_forall in Hh. by apply Hh.
Qed.

Lemma np_unique_sorted (y : list Z) : StronglySorted Z.lt (Py.np_unique y).
Proof.
  induction y as [|x y IH]; cbn [Py.np_unique foldr]; [constructor|].
  by apply insert_unique_sorted.
Qed.

Lemma NoDup_np_unique (y : list Z) : NoDup (Py.np_unique y).
Proof.
  pose proof (np_unique_sorted y) as Hs.
  induction Hs as [|v l Hl IH Hv]; constructor; [|done].
  intros Hin. rewrite Forall_forall in Hv. specialize (Hv v Hin). lia.
Qed.

(** [y.max()] bounds every entry of [y]. *)
Lemma foldl_max_ge (x : Z) (l : list Z) :
  x ≤ foldl Z.max x l ∧ Forall (λ v, v ≤ foldl Z.max x l) l.
Proof.
  revert x. induction l as [|h tl IH]; intros x; cbn [foldl]; [by split|].
  destruct (IH (Z.max x h)) as [Hx Htl]. split; [lia|].
  constructor; [lia|done].
Qed.

(** The number of distinct values reaches [y.max() + 1] exactly when no
    value between [0] and the maximum is missing. *)
Lemma unique_size_full (x : Z) (l : list Z) :
  Forall (λ v, 0 ≤ v) (x :: l) →
  foldl Z.max x l + 1 = Z.of_nat (length (Py.np_unique (x :: l)))
  ↔ (∀ v, 0 ≤ v ≤ foldl Z.max x l → v ∈ x :: l).
Proof.
  intros Hpos. set (m := foldl Z.max x l).
  assert (∀ v, v ∈ Py.np_unique (x :: l) → v ∈ seqZ 0 (m + 1)) as Hsub.
  { intros v Hv. rewrite elem_of_np_unique in Hv. apply elem_of_seqZ.
    pose proof (foldl_max_ge x l) as [Hx Hl]. fold m in Hx, Hl.
    rewrite Forall_forall in Hpos. rewrite Forall_forall in Hl.
    pose proof (Hpos v Hv) as Hv0. cbn beta in Hv0.
    apply elem_of_cons in Hv as [->|Hv]; [lia|].
    pose proof (Hl v Hv) as Hvm. cbn beta in Hvm. lia. }
  assert (0 ≤ m) as Hm.
  { pose proof (foldl_max_ge x l) as [Hx _]. fold m in Hx.
    apply Forall_cons in Hpos as [? _]. lia. }
  split.
  - intros Hlen v Hv. apply elem_of_np_unique.
    assert (Py.np_unique (x :: l) ≡ₚ seqZ 0 (m + 1)) as Hperm.
    { apply submseteq_length_Permutation.
      - apply NoDup_submseteq; [apply NoDup_np_unique|done].
      - rewrite length_seqZ. lia. }
    rewrite Hperm. apply elem_of_seqZ. lia.
  - intros Hall.
    assert (Py.np_unique (x :: l) ≡ₚ seqZ 0 (m + 1)) as Hperm.
    { apply NoDup_Permutation; [apply NoDup_np_unique|apply NoDup_seqZ|].
      intros v. split; [by apply Hsub|].
      intros Hv%elem_of_seqZ. apply elem_of_np_unique, Hall. lia. }
    rewrite Hperm, length_seqZ. lia.
Qed.

(** ** The rational instance obeys the laws *)

Lemma Qltb_lt (a b : Q) : Qmodel.Qltb a b = true ↔ (a < b)%Q.
Proof.
  unfold Qmodel.Qltb.
  rewrite negb_true_iff, <- not_true_iff_false, Qle_bool_iff.
  split; [apply Qnot_le_lt|apply Qlt_not_le].
Qed.

#[export] Instance Qmodel_laws : @NumpyLaws Qmodel.numpy.
Proof.
  split; cbn [F fleb fltb fadd fsub fmul flit np_std Qmodel.numpy]; intros *;
    rewrite ?Qle_bool_iff, ?Qltb_lt, ?Qred_correct; try lra.
  - intros; by apply Qmult_le_0_compat.
  - apply Qabs_nonneg.
Qed.

(** ** The data set and its labels *)

Section DataFacts.
Context `{Numpy} {lib : Lib}.

Lemma cell_data_y (r : draws) (dt : data) :
  (cell_data lib r).2 = Ok dt → y dt = classify (t dt).
Proof. intros Hd. cbv [cell_data bind output ret snd] in Hd. by injection Hd as <-. Qed.

(** The arrays of cell 2 have as many entries as the samples drawn. *)
Lemma cell_data_lengths (r : draws) (dt : data) :
  (cell_data lib r).2 = Ok dt →
  length (X dt) = length (draw_X r)
  ∧ length (y dt) = Nat.min (length (draw_X r)) (length (draw_noise r)).
Proof.
  intros Hd. rewrite (cell_data_y r dt Hd), classify_length.
  cbv [cell_data bind output ret snd] in Hd. injection Hd as <-.
  cbn [X t]. by rewrite !length_fmap, length_zip_with, !length_fmap.
Qed.

(** The three slices of cell 3, on a list of [n] entries. *)
Lemma split_slices {T} (l : list T) :
  Z.of_nat (length l) = n →
  Py.slice None (Some n_train) l = take (Z.to_nat 5000) l
  ∧ Py.slice (Some n_train) (Some (n_train + n_val)) l
    = take (Z.to_nat 1000) (drop (Z.to_nat 5000) l)
  ∧ Py.slice (Some (n_train + n_val)) None l = drop (Z.to_nat 6000) l.
Proof.
  intros Hlen.
  assert (n = 10000 ∧ n_train = 5000 ∧ n_train + n_val = 6000)
    as (Hn & -> & ->) by done.
  rewrite slice_to, slice_range, slice_from by lia. done.
Qed.

End DataFacts.

(** ** Running the script monad *)

Section Runs.
Context `{Numpy} {lib : Lib}.

Local Abbreviation matrix := (list (list F)).

Lemma bind_ok_inv {A B} (m : M lib A) (f : A → M lib B) tr b :
  bind m f = (tr, Ok b) →
  ∃ tr1 a tr2, m = (tr1, Ok a) ∧ f a = (tr2, Ok b) ∧ tr = tr1 ++ tr2.
Proof.
  destruct m as [tr1 [a|e]]; simpl; [|discriminate].
  destruct (f a) as [tr2 r] eqn:Hf. intros [= <- ->]. by exists tr1, a, tr2.
Qed.

Lemma ret_ok_inv {A} (a b : A) (tr : list (event lib)) :
  ret a = (tr, Ok b) → tr = [] ∧ a = b.
Proof. by intros [= <- <-]. Qed.

Lemma invoke_ok_inv {A} (c : call lib) (o : outcome A) tr a :
  invoke c o = (tr, Ok a) → o = Returned a ∧ tr = [Ev c None].
Proof. destruct o; simpl; [|discriminate]. by intros [= <- <-]. Qed.

Lemma output_inv (c : call lib) tr r :
  output c = (tr, r) → tr = [Ev c None] ∧ r = Ok tt.
Proof. by intros [= <- <-]. Qed.

Lemma py_assert_ok_inv site b (tr : list (event lib)) u :
  py_assert site b = (tr, Ok u) → b = true ∧ tr = [].
Proof. destruct b; simpl; [|discriminate]. by intros [= <-]. Qed.

(** A comprehension that completes has called [f] on every element, in
    order, and collected the results. *)
Lemma comprehension_ok_inv {A B} (c : A → call lib) (f : A → outcome B) l tr bs :
  comprehension (λ a, invoke (c a) (f a)) l = (tr, Ok bs) →
  Forall2 (λ a b, f a = Returned b) l bs ∧ tr = map (λ a, Ev (c a) None) l.
Proof.
  revert tr bs. induction l as [|a l IH]; intros tr bs Hrun.
  - apply ret_ok_inv in Hrun as [-> <-]. by split; [constructor|].
  - cbn [comprehension] in Hrun.
    apply bind_ok_inv in Hrun as (tr1 & b & tr2 & Ha & Hrun & ->).
    apply invoke_ok_inv in Ha as [Ha ->].
    apply bind_ok_inv in Hrun as (tr3 & bs' & tr4 & Hl & Hrun & ->).
    apply ret_ok_inv in Hrun as [-> <-].
    destruct (IH _ _ Hl) as [Hall ->].
    split; [by constructor|]. by rewrite app_nil_r.
Qed.

End Runs.

(** ** Runs that reach the end *)

Section Completed.
Context `{Numpy} {lib : Lib}.

Local Abbreviation matrix := (list (list F)).

Lemma pair_eqb_eq (a b : Z * Z) : pair_eqb a b = true ↔ a = b.
Proof.
  destruct a as [a1 a2], b as [b1 b2]. unfold pair_eqb. simpl.
  rewrite andb_true_iff, !Z.eqb_eq. split; [intros [-> ->]|intros [= -> ->]]; done.
Qed.

Ltac inv_ok :=
  repeat match goal with
  | H : bind _ _ = (_, Ok _) |- _ =>
      apply bind_ok_inv in H as (? & ? & ? & ? & H & ->); cbv beta in H
  | H : ret _ = (_, Ok _) |- _ => apply ret_ok_inv in H as [-> ?]
  | H : invoke _ _ = (_, Ok _) |- _ => apply invoke_ok_inv in H as [H ->]
  | H : output _ = (_, _) |- _ => apply output_inv in H as [-> ?]
  | H : py_assert _ _ = (_, Ok _) |- _ => apply py_assert_ok_inv in H as [H ->]
  | H : context [match ?x with (_, _) => _ end] |- _ => is_var x; destruct x
  end.

Lemma cell_data_run (r : draws) :
  ∃ dt, (cell_data lib r).2 = Ok dt ∧ (cell_data lib r).1 = data_trace dt.
Proof. eexists. split; reflexivity. Qed.

Lemma cell_graph_ok_inv (Xtr : matrix) tr (g : knn lib) :
  cell_graph Xtr = (tr, Ok g) →
  distance_scipy_spatial lib (np_T Xtr) 10 "euclidean" = Returned (dist g, idx g)
  ∧ (∃ A0, adjacency lib (dist g) (idx g) = Returned A0
           ∧ A g = astype_float32 lib A0)
  ∧ shape lib (A g) = (d, d)
  ∧ tr = [ returned (GraphDistanceScipySpatial (np_T Xtr) 10 "euclidean");
           returned (GraphAdjacency (dist g) (idx g));
           returned (PrintGraphSize d (nnz lib (A g)));
           returned (PltSpy (A g) 2 "black") ].
Proof.
  unfold cell_graph. intros Hrun. inv_ok. subst. simpl.
  match goal with Hs : pair_eqb _ _ = true |- _ => apply pair_eqb_eq in Hs end.
  eauto 10.
Qed.

Lemma cell_coarsen_ok_inv (A : sparse lib) (s : split) tr (p : pyramid lib) :
  cell_coarsen A s = (tr, Ok p) →
  coarsen lib A 3 false = Returned (graphs p, perm p)
  ∧ perm_data lib (X_train s) (perm p) = Returned (perm_X_train p)
  ∧ perm_data lib (X_val s) (perm p) = Returned (perm_X_val p)
  ∧ perm_data lib (X_test s) (perm p) = Returned (perm_X_test p)
  ∧ tr = [ returned (CoarseningCoarsen A 3 false);
           returned (CoarseningPermData (X_train s) (perm p));
           returned (CoarseningPermData (X_val s) (perm p));
           returned (CoarseningPermData (X_test s) (perm p)) ].
Proof. unfold cell_coarsen. intros Hrun. inv_ok. subst. simpl. eauto 10. Qed.

Lemma cell_laplacian_ok_inv (gs : list (sparse lib)) tr Ls :
  cell_laplacian gs = (tr, Ok Ls) →
  Forall2 (λ A La, laplacian lib A true = Returned La) gs Ls
  ∧ plot_spectrum lib Ls = Returned ()
  ∧ tr = map (λ A, returned (GraphLaplacian A true)) gs
         ++ [ returned (GraphPlotSpectrum Ls) ].
Proof.
  unfold cell_laplacian. intros Hrun. inv_ok. subst.
  match goal with Hc : comprehension _ _ = _ |- _ =>
    apply (comprehension_ok_inv (λ A, GraphLaplacian A true)
             (λ A, laplacian lib A true)) in Hc as [Hall ->] end.
  match goal with u : unit |- _ => destruct u end.
  rewrite app_nil_r. eauto.
Qed.

Lemma cell_fit_ok_inv Ls ps (Xtr : matrix) ytr (Xv : matrix) yv tr (m : trained lib) :
  cell_fit Ls ps Xtr ytr Xv yv = (tr, Ok m) →
  cgcnn lib Ls ps = Returned (model m)
  ∧ fit lib (model m) Xtr ytr Xv yv = Returned (accuracy m, loss m, t_step m)
  ∧ tr = [ returned (ModelsCgcnn Ls ps);
           returned (ModelFit (model m) Xtr ytr Xv yv) ].
Proof. unfold cell_fit. intros Hrun. inv_ok. subst. simpl. eauto. Qed.

Lemma cell_curves_run (acc ls : curve_t lib) :
  cell_curves acc ls
  = ([ returned (PltSubplots (15, 5));
       returned (AxPlot Ax1 acc "b.-");
       returned (AxSetYlabel Ax1 "validation accuracy" "b");
       returned (AxTwinx Ax1);
       returned (AxPlot Ax2 ls "g.-");
       returned (AxSetYlabel Ax2 "training loss" "g");
       returned PltShow ], Ok ()).
Proof. reflexivity. Qed.

Lemma cell_evaluate_ok_inv mdl (Xte : matrix) yte tr (rs : res_t lib) :
  cell_evaluate mdl Xte yte = (tr, Ok rs) →
  evaluate lib mdl Xte yte = Returned rs
  ∧ tr = [ returned (ModelEvaluate mdl Xte yte);
           returned (PrintRes0 (res_item0 lib rs)) ].
Proof. unfold cell_evaluate. intros Hrun. inv_ok. subst. simpl. eauto. Qed.

Lemma cell_params_cases (y : list Z) :
  match cell_params lib y with
  | (tr, Ok h) =>
      tr = []
      ∧ ∃ x l, y = x :: l ∧ C h = foldl Z.max x l + 1
               ∧ C h = Z.of_nat (length (Py.np_unique y))
               ∧ params h !! "M" = Some (PList [512; C h])
  | (tr, Err e) =>
      tr = []
      ∧ ((y = [] ∧ e = ValueError)
         ∨ (∃ x l, y = x :: l
                   ∧ foldl Z.max x l + 1 ≠ Z.of_nat (length (Py.np_unique y))
                   ∧ e = AssertionError AssertClasses))
  end.
Proof.
  unfold cell_params, np_max, py_assert, getitem, bind, ret, raise.
  destruct y as [|x l]; cbv beta iota zeta; [by eauto|].
  destruct (Z.eqb_spec (foldl Z.max x l + 1)
              (Z.of_nat (length (Py.np_unique (x :: l))))) as [Heq|Hne];
    cbv beta iota zeta; [|by eauto 10].
  rewrite !lookup_insert_ne by done. rewrite lookup_insert_eq.
  cbn [truediv Z.eqb ret app]. split; [done|]. exists x, l.
  split_and!; try done; cbn [params C];
    by rewrite !lookup_insert_ne, lookup_insert_eq by done.
Qed.

(** A run that reaches the end: what was called, with what, and what came
    back. *)
Lemma notebook_ok_inv {U} (utils : U) (r : draws) tr (e : env lib) :
  notebook lib utils r = (tr, Ok e) → completes r e ∧ tr = trace_of e.
Proof.
  unfold notebook. intros Hrun. inv_ok.
  repeat match goal with u : unit |- _ => destruct u end.
  match goal with Hd : cell_data _ _ = _ |- _ =>
    destruct (cell_data_run r) as (dt & Hdt & Htr);
    rewrite Hd in Hdt, Htr; simpl in Hdt, Htr; injection Hdt as ->; subst;
    rename Hd into Hdata end.
  match goal with Hg : cell_graph _ = _ |- _ =>
    apply cell_graph_ok_inv in Hg as (Hdist & Hadj & Hshape & ->) end.
  match goal with Hc : cell_coarsen _ _ = _ |- _ =>
    apply cell_coarsen_ok_inv in Hc as (Hco & Hp1 & Hp2 & Hp3 & ->) end.
  match goal with Hl : cell_laplacian _ = _ |- _ =>
    apply cell_laplacian_ok_inv in Hl as (Hlap & Hspec & ->) end.
  match goal with Hf : cell_fit _ _ _ _ _ _ = _ |- _ =>
    apply cell_fit_ok_inv in Hf as (Hcg & Hfit & ->) end.
  match goal with Hc : cell_curves _ _ = _ |- _ =>
    rewrite cell_curves_run in Hc; injection Hc as <- end.
  match goal with He : cell_evaluate _ _ _ = _ |- _ =>
    apply cell_evaluate_ok_inv in He as (Hev & ->) end.
  match goal with Hp : cell_params _ _ = _ |- _ =>
    pose proof (cell_params_cases (y dt)) as Hpc;
    rewrite Hp in Hpc; destruct Hpc as [-> _]; rename Hp into Hparams end.
  match goal with Ht : cell_time _ = _ |- _ =>
    apply output_inv in Ht as [-> _] end.
  split.
  - constructor;
      cbn [e_data e_split e_knn e_pyramid L e_hyper e_trained res]; try done.
    + by rewrite Hdata.
    + by rewrite Hparams.
  - unfold trace_of.
    cbn [e_data e_split e_knn e_pyramid L e_hyper e_trained res].
    reflexivity.
Qed.

End Completed.

Section Calls.
Context `{Numpy} {lib : Lib}.

Lemma calls_of_app k (tr1 tr2 : list (event lib)) :
  calls_of k (tr1 ++ tr2) = calls_of k tr1 ++ calls_of k tr2.
Proof. apply filter_app. Qed.

Lemma calls_of_laplacians k (gs : list (sparse lib)) :
  calls_of k (map (λ A, returned (GraphLaplacian A true)) gs)
  = if decide (k = KLaplacian)
    then map (λ A, returned (GraphLaplacian A true)) gs else [].
Proof.
  unfold calls_of. induction gs as [|A gs IH]; [by destruct (decide _)|].
  cbn [map]. rewrite filter_cons, IH. cbn [returned ev_call kind_of].
  destruct (decide (k = KLaplacian)) as [->|Hne].
  - by rewrite decide_True.
  - by rewrite decide_False.
Qed.

(** The calls of one kind in a run that reaches the end. *)
Lemma calls_of_trace_of k (e : env lib) :
  calls_of k (trace_of e)
  = calls_of k (data_trace (e_data e))
    ++ calls_of k (graph_trace (e_split e) (e_knn e))
    ++ calls_of k (coarsen_trace (e_split e) (e_knn e) (e_pyramid e))
    ++ ((if decide (k = KLaplacian)
         then map (λ A, returned (GraphLaplacian A true)) (graphs (e_pyramid e))
         else [])
        ++ calls_of k [returned (GraphPlotSpectrum (L e))])
    ++ calls_of k (fit_trace (e_split e) (e_pyramid e) (L e) (e_hyper e)
                     (e_trained e))
    ++ calls_of k (curves_trace (e_trained e))
    ++ calls_of k (time_trace (e_trained e))
    ++ calls_of k (evaluate_trace (e_split e) (e_pyramid e) (e_trained e)
                     (res e)).
Proof.
  unfold trace_of, laplacian_trace.
  by rewrite !calls_of_app, calls_of_laplacians.
Qed.

Lemma elem_of_trace_of (ev : event lib) (e : env lib) :
  ev ∈ trace_of e ↔
    ev ∈ data_trace (e_data e)
    ∨ ev ∈ graph_trace (e_split e) (e_knn e)
    ∨ ev ∈ coarsen_trace (e_split e) (e_knn e) (e_pyramid e)
    ∨ (∃ A, ev = returned (GraphLaplacian A true) ∧ A ∈ graphs (e_pyramid e))
    ∨ ev = returned (GraphPlotSpectrum (L e))
    ∨ ev ∈ fit_trace (e_split e) (e_pyramid e) (L e) (e_hyper e) (e_trained e)
    ∨ ev ∈ curves_trace (e_trained e)
    ∨ ev ∈ time_trace (e_trained e)
    ∨ ev ∈ evaluate_trace (e_split e) (e_pyramid e) (e_trained e) (res e).
Proof.
  unfold trace_of, laplacian_trace.
  rewrite !elem_of_app, list_elem_of_fmap, list_elem_of_singleton.
  tauto.
Qed.

End Calls.

(** Case analysis on an event of a completed run. *)
Ltac in_trace H :=
  apply elem_of_trace_of in H;
  unfold data_trace, graph_trace, coarsen_trace, fit_trace, curves_trace,
    time_trace, evaluate_trace, returned in H;
  repeat (rewrite elem_of_cons in H);
  rewrite ?elem_of_nil in H;
  destruct_or?; destruct_and?; try done;
  repeat match goal with
         | Hx : ∃ _, _ ∧ _ |- _ => destruct Hx as (? & ? & ?)
         end;
  simplify_eq.

(** The calls of one kind in a completed run, by computation. *)
Ltac calls_of_run :=
  rewrite calls_of_trace_of;
  first [ reflexivity
        | rewrite decide_True by done;
          match goal with
          | |- _ = ?rhs => exact (eq_trans (app_nil_r (rhs ++ [])) (app_nil_r rhs))
          end ].

(** ** Every run, step by step *)

Section Stepping.
Context `{Numpy} {lib : Lib}.

Lemma after_start {T} (m : M lib T)
    (Q : list (event lib) → result T → Prop) :
  after [] m Q → ∀ tr out, m = (tr, out) → Q tr out.
Proof. intros Hm tr out ->. exact Hm. Qed.

Lemma after_value {T} (tr0 : list (event lib)) tr (out : result T) Q :
  Q (tr0 ++ tr) out → after tr0 (tr, out) Q.
Proof. done. Qed.

Lemma after_ret {T} (tr0 : list (event lib)) (a : T) Q :
  Q tr0 (Ok a) → after tr0 (ret a) Q.
Proof. unfold after, ret. cbn [fst snd]. by rewrite app_nil_r. Qed.

Lemma after_raise {T} (tr0 : list (event lib)) (x : exn)
    (Q : list (event lib) → result T → Prop) :
  Q tr0 (Err x) → after tr0 (raise x) Q.
Proof. unfold after, raise. cbn [fst snd]. by rewrite app_nil_r. Qed.

Lemma after_bind {S T} (tr0 : list (event lib)) (m : M lib S)
    (f : S → M lib T) Q :
  after tr0 m (λ tr out,
    match out with
    | Ok a => after tr (f a) Q
    | Err x => Q tr (Err x)
    end) →
  after tr0 (bind m f) Q.
Proof.
  destruct m as [tr1 [a|x]]; unfold after, bind; cbn [fst snd]; [|done].
  destruct (f a) as [tr2 out]. cbn [fst snd]. by rewrite app_assoc.
Qed.

Lemma after_invoke {T} (tr0 : list (event lib)) (c : call lib)
    (o : outcome T) Q :
  (∀ a, o = Returned a → Q (tr0 ++ [Ev c None]) (Ok a)) →
  (∀ msg, o = Raises msg → Q (tr0 ++ [Ev c (Some msg)]) (Err (LibError msg))) →
  after tr0 (invoke c o) Q.
Proof. intros Hret Hraise. destruct o; [by apply Hret|by apply Hraise]. Qed.

Lemma after_output (tr0 : list (event lib)) (c : call lib) Q :
  Q (tr0 ++ [Ev c None]) (Ok ()) → after tr0 (output c) Q.
Proof. done. Qed.

Lemma after_assert (tr0 : list (event lib)) site (b : bool) Q :
  (b = true → Q tr0 (Ok ())) →
  (b = false → Q tr0 (Err (AssertionError site))) →
  after tr0 (py_assert site b) Q.
Proof.
  intros Ht Hf. destruct b; [apply after_ret|apply after_raise]; auto.
Qed.

(** A comprehension either calls [f] on every element, or stops at the
    first element on which [f] raises. *)
Lemma after_comprehension {S T} (tr0 : list (event lib)) (c : S → call lib)
    (f : S → outcome T) l Q :
  (∀ bs, Forall2 (λ a b, f a = Returned b) l bs →
     Q (tr0 ++ map (λ a, Ev (c a) None) l) (Ok bs)) →
  (∀ pre a post msg, l = pre ++ a :: post → f a = Raises msg →
     Q ((tr0 ++ map (λ a, Ev (c a) None) pre) ++ [Ev (c a) (Some msg)])
       (Err (LibError msg))) →
  after tr0 (comprehension (λ a, invoke (c a) (f a)) l) Q.
Proof.
  revert tr0 Q. induction l as [|a l IH]; intros tr0 Q Hall Hstop.
  - apply after_ret. specialize (Hall [] ltac:(constructor)).
    by rewrite app_nil_r in Hall.
  - cbn [comprehension]. apply after_bind, after_invoke.
    + intros b Hb. apply after_bind, IH.
      * intros bs Hbs. apply after_ret.
        specialize (Hall (b :: bs) ltac:(by constructor)).
        cbn [map] in Hall. by rewrite cons_middle, app_assoc in Hall.
      * intros pre a' post msg -> Ha'.
        specialize (Hstop (a :: pre) a' post msg eq_refl Ha').
        cbn [map] in Hstop.
        by rewrite (cons_middle _ tr0), (app_assoc tr0) in Hstop.
    + intros msg Ha.
      specialize (Hstop [] a l msg eq_refl Ha).
      cbn [map] in Hstop. by rewrite app_nil_r in Hstop.
Qed.

Lemma after_cell_data (tr0 : list (event lib)) (r : draws) Q :
  (∀ dt, (cell_data lib r).2 = Ok dt → Q (tr0 ++ data_trace dt) (Ok dt)) →
  after tr0 (cell_data lib r) Q.
Proof.
  intros HQ. destruct (cell_data_run (lib := lib) r) as (dt & Hdt & Htr).
  unfold after. rewrite Htr, Hdt. by apply HQ.
Qed.

Lemma after_cell_params (tr0 : list (event lib)) (y : list Z) Q :
  (y = [] → Q tr0 (Err ValueError)) →
  (∀ x l, y = x :: l →
     foldl Z.max x l + 1 ≠ Z.of_nat (length (Py.np_unique y)) →
     Q tr0 (Err (AssertionError AssertClasses))) →
  (∀ h x l, y = x :: l → C h = foldl Z.max x l + 1 →
     C h = Z.of_nat (length (Py.np_unique y)) →
     params h !! "M" = Some (PList [512; C h]) →
     Q tr0 (Ok h)) →
  after tr0 (cell_params lib y) Q.
Proof.
  intros Hempty Hfail Hpass. pose proof (cell_params_cases (lib := lib) y) as Hc.
  unfold after. destruct (cell_params lib y) as [tr [h|x]]; cbn [fst snd].
  - destruct Hc as (-> & x & l & Hy & HC & Hsize & HM).
    rewrite app_nil_r. by eapply Hpass.
  - destruct Hc as (-> & [[Hy ->]|(x' & l & Hy & Hne & ->)]);
      rewrite app_nil_r; [by apply Hempty|by eapply Hfail].
Qed.

End Stepping.

(** One step of the script. *)
Ltac step :=
  lazymatch goal with
  | |- after _ (bind _ _) _ => apply after_bind
  | |- after _ (ret _) _ => apply after_ret
  | |- after _ (invoke _ _) _ =>
      apply after_invoke; [intros ? ?|intros ? ?]
  | |- after _ (output _) _ => apply after_output
  | |- after _ (py_assert _ _) _ => apply after_assert; intros ?
  | |- after _ (cell_data _ _) _ => apply after_cell_data; intros ? ?
  | |- after _ (cell_params _ _) _ =>
      apply after_cell_params; [intros ?|intros ? ? ? ?|intros ? ? ? ? ? ? ?]
  | |- after _ (comprehension _ _) _ =>
      apply after_comprehension; [intros ? ?|intros ? ? ? ? ? ?]
  | |- after _ (cell_curves _ _) _ =>
      rewrite cell_curves_run; apply after_value
  | |- after _ (match ?x with (_, _) => _ end) _ => destruct x
  | |- after _ (notebook _ _ _) _ => unfold notebook
  | |- after _ (cell_graph _) _ => unfold cell_graph
  | |- after _ (cell_coarsen _ _) _ => unfold cell_coarsen
  | |- after _ (cell_laplacian _) _ => unfold cell_laplacian
  | |- after _ (cell_fit _ _ _ _ _ _) _ => unfold cell_fit
  | |- after _ (cell_time _) _ => unfold cell_time
  | |- after _ (cell_evaluate _ _ _) _ => unfold cell_evaluate
  end;
  cbv beta iota;
  cbn [dist idx A graphs perm perm_X_train perm_X_val perm_X_test
       model accuracy loss t_step].

(** All the ways the notebook can run: one goal per place where it can
    stop, with the calls made and what they returned. *)
Ltac all_runs :=
  lazymatch goal with
  | |- ∀ tr out, notebook ?l ?u ?r = (tr, out) → @?Q tr out =>
      apply (after_start (notebook l u r) Q);
      set (Post := Q);
      repeat step
  end.

Section Shape.
Context `{Numpy} {lib : Lib}.

Lemma kinds_app (tr1 tr2 : list (event lib)) :
  kinds (tr1 ++ tr2) = kinds tr1 ++ kinds tr2.
Proof. apply map_app. Qed.

Lemma kinds_laplacians (gs : list (sparse lib)) :
  kinds (map (λ A, Ev (GraphLaplacian A true) None) gs)
  = replicate (length gs) KLaplacian.
Proof. induction gs as [|A gs IH]; [done|]. cbn. by f_equal. Qed.

End Shape.

(** The pipeline, cut around its block of Laplacian calls. *)
Lemma pipeline_eq (k : nat) :
  pipeline k
  = [KPltFigure; KPltPlot; KPrint; KDistance; KAdjacency; KPrint; KPltSpy;
     KCoarsen; KPermData; KPermData; KPermData]
    ++ replicate k KLaplacian
    ++ [KPlotSpectrum; KCgcnn; KFit; KPltSubplots; KAxPlot; KAxSetYlabel;
        KAxTwinx; KAxPlot; KAxSetYlabel; KPltShow; KPrint; KEvaluate; KPrint].
Proof. unfold pipeline. cbn [app]. by rewrite <- app_assoc. Qed.

Ltac prefix_of_pipeline :=
  rewrite ?kinds_app, ?kinds_laplacians;
  cbn [kinds map data_trace returned ev_call kind_of app];
  rewrite <- ?app_assoc; cbn [app];
  lazymatch goal with
  | |- ∃ k, _ :: _ :: _ :: _ :: _ :: _ :: _ :: _ :: _ :: _ :: _ ::
            replicate ?n KLaplacian ++ [KLaplacian] `prefix_of` _ =>
      exists (S n); rewrite pipeline_eq, replicate_S_end, <- app_assoc
  | |- ∃ k, _ :: _ :: _ :: _ :: _ :: _ :: _ :: _ :: _ :: _ :: _ ::
            replicate ?n KLaplacian ++ _ `prefix_of` _ =>
      exists n; rewrite pipeline_eq
  | |- _ => exists 0%nat; rewrite pipeline_eq
  end;
  cbn [app replicate];
  repeat apply prefix_cons;
  try apply prefix_nil;
  apply prefix_app;
  repeat apply prefix_cons;
  apply prefix_nil.

Section Linear.
Context `{Numpy} {lib : Lib}.

(** Whatever the external modules answer, the calls of a run are an
    initial segment of the pipeline. *)
Lemma notebook_prefix {U} (utils : U) (r : draws) :
  ∀ tr out, notebook lib utils r = (tr, out) →
    ∃ k, kinds tr `prefix_of` pipeline k.
Proof. all_runs; subst Post; cbv beta; prefix_of_pipeline. Qed.

End Linear.

(** ** Exceptions *)

Section Exceptions.
Context `{Numpy} {lib : Lib}.

Lemma quiet_nil : quiet ([] : list (event lib)).
Proof. constructor. Qed.

Lemma quiet_app (tr1 tr2 : list (event lib)) :
  quiet tr1 → quiet tr2 → quiet (tr1 ++ tr2).
Proof. intros. by apply Forall_app. Qed.

Lemma quiet_one (c : call lib) : quiet [Ev c None].
Proof. by repeat constructor. Qed.

Lemma quiet_data (dt : data) : quiet (data_trace dt : list (event lib)).
Proof. by repeat constructor. Qed.

Lemma quiet_laplacians (gs : list (sparse lib)) :
  quiet (map (λ A, Ev (GraphLaplacian A true) None) gs).
Proof. apply Forall_fmap, Forall_true. done. Qed.

Lemma quiet_not_raised tr (c : call lib) msg :
  quiet tr → Ev c (Some msg) ∈ tr → False.
Proof.
  unfold quiet. rewrite Forall_forall. intros Hq Hin.
  by specialize (Hq _ Hin).
Qed.

(** When the last call raised and no call before it did, it is the only
    call of the trace that raised. *)
Lemma raised_last tr (c c' : call lib) msg msg' :
  quiet tr → Ev c' (Some msg') ∈ tr ++ [Ev c (Some msg)] →
  msg' = msg ∧ last (tr ++ [Ev c (Some msg)]) = Some (Ev c' (Some msg')).
Proof.
  intros Hq [Hin|Hin%list_elem_of_singleton]%elem_of_app.
  - by destruct (quiet_not_raised _ _ _ Hq Hin).
  - injection Hin as -> ->. by rewrite last_snoc.
Qed.

End Exceptions.

Ltac quiet_trace :=
  repeat first
    [ apply quiet_app
    | apply quiet_nil
    | apply quiet_one
    | apply quiet_data
    | apply quiet_laplacians
    | by repeat constructor ].

Section NothingCaught.
Context `{Numpy} {lib : Lib}.

(** An exception raised by a call ends the script: the call is the last
    one, and its exception is the outcome. *)
Lemma notebook_propagates {U} (utils : U) (r : draws) :
  ∀ tr out, notebook lib utils r = (tr, out) →
    ∀ c msg, Ev c (Some msg) ∈ tr →
      out = Err (LibError msg) ∧ last tr = Some (Ev c (Some msg)).
Proof.
  all_runs; subst Post; cbv beta; intros ev_c ev_msg Hin;
    first
      [ solve [ exfalso; eapply quiet_not_raised; [|exact Hin]; quiet_trace ]
      | apply raised_last in Hin as [-> Hlast];
        [by split|solve [quiet_trace]] ].
Qed.

End NothingCaught.

(** Case analysis on an event of a run in progress. *)
Ltac in_run H :=
  repeat (apply elem_of_app in H as [H|H]);
  unfold data_trace, returned in H;
  repeat (rewrite elem_of_cons in H);
  rewrite ?elem_of_nil, ?list_elem_of_fmap in H;
  destruct_or?; destruct_and?; try done;
  repeat match goal with
         | Hx : ∃ _, _ ∧ _ |- _ => destruct Hx as (? & ? & ?)
         end;
  simplify_eq.

Section Assertions.
Context `{Numpy} {lib : Lib}.

(** What can end the script early: an exception of the last call, an empty
    label array, or one of the two assertions on a condition that is
    false. *)
Lemma notebook_errors {U} (utils : U) (r : draws) :
  ∀ tr out, notebook lib utils r = (tr, out) →
    ∀ x, out = Err x →
      (∃ c msg, x = LibError msg ∧ last tr = Some (Ev c (Some msg)))
      ∨ (x = ValueError ∧ ∃ dt, (cell_data lib r).2 = Ok dt ∧ y dt = [])
      ∨ (x = AssertionError AssertShape
         ∧ ∃ dist idx A0,
             last tr = Some (returned (GraphAdjacency dist idx))
             ∧ adjacency lib dist idx = Returned A0
             ∧ shape lib (astype_float32 lib A0) ≠ (d, d))
      ∨ (x = AssertionError AssertClasses
         ∧ ∃ dt ymax,
             (cell_data lib r).2 = Ok dt
             ∧ np_max (lib := lib) (y dt) = ([], Ok ymax)
             ∧ ymax + 1 ≠ Z.of_nat (length (Py.np_unique (y dt)))).
Proof.
  all_runs; subst Post; cbv beta; intros raised [= <-];
    first
      [ left; do 2 eexists; split; [reflexivity|apply last_snoc]
      | right; left; split; [reflexivity|]; by eauto
      | right; right; left; split; [reflexivity|];
        do 3 eexists; split_and!; [apply last_snoc|eassumption|];
        match goal with
        | Hb : pair_eqb _ _ = false |- _ =>
            intros Heq%pair_eqb_eq; congruence
        end
      | right; right; right; split; [reflexivity|];
        match goal with
        | Hy : y ?dt = ?x :: ?l |- _ =>
            exists dt, (foldl Z.max x l); rewrite Hy; split_and!;
            [done|reflexivity|by rewrite <- Hy]
        end ].
Qed.

(** The statements that follow an assertion run only if it held. *)
Lemma notebook_guarded {U} (utils : U) (r : draws) :
  ∀ tr out, notebook lib utils r = (tr, out) →
    (∀ d' z o, Ev (PrintGraphSize d' z) o ∈ tr →
       ∃ dist idx A0,
         adjacency lib dist idx = Returned A0
         ∧ shape lib (astype_float32 lib A0) = (d, d)
         ∧ z = nnz lib (astype_float32 lib A0))
    ∧ (∀ Ls ps o, Ev (ModelsCgcnn Ls ps) o ∈ tr →
         ∃ dt ymax,
           (cell_data lib r).2 = Ok dt
           ∧ np_max (lib := lib) (y dt) = ([], Ok ymax)
           ∧ ymax + 1 = Z.of_nat (length (Py.np_unique (y dt)))).
Proof.
  all_runs; subst Post; cbv beta; split.
  all: intros ? ? ? Hin; in_run Hin.
  all: try (do 3 eexists; split_and!;
            [eassumption|by apply pair_eqb_eq|reflexivity]).
  all: match goal with
       | Hy : y ?dt = ?x :: ?l |- _ =>
           exists dt, (foldl Z.max x l); rewrite Hy; split_and!;
           [done|reflexivity|rewrite <- Hy; congruence]
       end.
Qed.

End Assertions.

(** ** The script as a whole *)

Section Whole.
Context `{Numpy} {lib : Lib}.

Lemma kinds_trace_of (e : env lib) :
  kinds (trace_of e) = pipeline (length (graphs (e_pyramid e))).
Proof.
  unfold trace_of, laplacian_trace. rewrite !kinds_app.
  unfold returned. rewrite kinds_laplacians. reflexivity.
Qed.

Lemma class_count_checked (yd : list Z) (h : hyper) :
  (cell_params lib yd).2 = Ok h →
  C h = Z.of_nat (length (Py.np_unique yd)).
Proof.
  intros Hh. pose proof (cell_params_cases (lib := lib) yd) as Hc.
  destruct (cell_params lib yd) as [tr [h'|x]]; [|done].
  injection Hh as ->. by destruct Hc as (_ & ? & ? & _ & _ & ? & _).
Qed.

End Whole.

(** * Main theorems *)

(** The script reaches its end on the rational instance. *)
Lemma sample_run :
  notebook Qmodel.lib () Qmodel.sample
  = (Qmodel.sample_trace, Ok Qmodel.sample_env).
Proof. reflexivity. Defined.

(** C1 — The script handles no error.  An exception raised by an external
    call is never caught: the call is the last one of the run and its
    exception is the outcome of the script.  The only checks of the script
    itself are the two assertions, [assert A.shape == (d, d)] after the
    adjacency matrix is built and [assert C == np.unique(y).size] after
    the number of classes is computed: an [AssertionError] ends the run
    exactly where one of these conditions is false, and the statements
    after an assertion are reached only if its condition held. *)
Theorem C1_assertions_only `{Numpy} (lib : Lib) {U} (utils : U) (r : draws)
    (tr : list (event lib)) (out : result (env lib)) :
  notebook lib utils r = (tr, out) →
  (∀ c msg, Ev c (Some msg) ∈ tr →
     out = Err (LibError msg) ∧ last tr = Some (Ev c (Some msg)))
  ∧ (∀ x, out = Err x →
       (∃ c msg, x = LibError msg ∧ last tr = Some (Ev c (Some msg)))
       ∨ (x = ValueError ∧ ∃ dt, (cell_data lib r).2 = Ok dt ∧ y dt = [])
       ∨ (x = AssertionError AssertShape
          ∧ ∃ dist idx A0,
              last tr = Some (returned (GraphAdjacency dist idx))
              ∧ adjacency lib dist idx = Returned A0
              ∧ shape lib (astype_float32 lib A0) ≠ (d, d))
       ∨ (x = AssertionError AssertClasses
          ∧ ∃ dt ymax,
              (cell_data lib r).2 = Ok dt
              ∧ np_max (lib := lib) (y dt) = ([], Ok ymax)
              ∧ ymax + 1 ≠ Z.of_nat (length (Py.np_unique (y dt)))))
  ∧ (∀ d' z o, Ev (PrintGraphSize d' z) o ∈ tr →
       ∃ dist idx A0,
         adjacency lib dist idx = Returned A0
         ∧ shape lib (astype_float32 lib A0) = (d, d)
         ∧ z = nnz lib (astype_float32 lib A0))
  ∧ (∀ Ls ps o, Ev (ModelsCgcnn Ls ps) o ∈ tr →
       ∃ dt ymax,
         (cell_data lib r).2 = Ok dt
         ∧ np_max (lib := lib) (y dt) = ([], Ok ymax)
         ∧ ymax + 1 = Z.of_nat (length (Py.np_unique (y dt))))
  ∧ (∀ e, out = Ok e →
       shape lib (A (e_knn e)) = (d, d)
       ∧ C (e_hyper e) = Z.of_nat (length (Py.np_unique (y (e_data e))))).
Proof.
  intros Hrun. split_and!.
  - by apply (notebook_propagates utils r).
  - by apply (notebook_errors utils r).
  - by apply (notebook_guarded utils r tr out).
  - by apply (notebook_guarded utils r tr out).
  - intros e ->. apply notebook_ok_inv in Hrun as [Hc _]. split.
    + apply Hc.
    + apply (class_count_checked (lib := lib)), Hc.
Qed.

Lemma C1_assertions_only_witness :
  notebook Qmodel.lib () Qmodel.sample
  = (Qmodel.sample_trace, Ok Qmodel.sample_env)
  ∧ shape Qmodel.lib (A (e_knn Qmodel.sample_env)) = (d, d)
  ∧ C (e_hyper Qmodel.sample_env)
    = Z.of_nat (length (Py.np_unique (y (e_data Qmodel.sample_env)))).
Proof.
  split; [exact sample_run|].
  destruct (C1_assertions_only Qmodel.lib () Qmodel.sample Qmodel.sample_trace
              (Ok Qmodel.sample_env) sample_run)
    as (_ & _ & _ & _ & Hok).
  exact (Hok Qmodel.sample_env eq_refl).
Defined.

Example bad_shape_stops :
  (notebook Qmodel.lib_bad_shape () Qmodel.sample).2
  = Err (AssertionError AssertShape).
Proof. reflexivity. Qed.

Example bad_shape_trace :
  kinds (notebook Qmodel.lib_bad_shape () Qmodel.sample).1
  = [KPltFigure; KPltPlot; KPrint; KDistance; KAdjacency].
Proof. reflexivity. Qed.

(** C2 — The pair [(dist, idx)] returned by
    [graph.distance_scipy_spatial(X_train.T, k=10, metric='euclidean')] is
    passed unchanged as the two arguments of [graph.adjacency], whose
    result, cast to [float32], is the adjacency matrix [A]: the one whose
    [nnz] is printed, that is plotted, and that is coarsened into the
    pyramid every later step works on.  Past the assertion, [A] has shape
    [(d, d)] with [d = 100]. *)
Theorem C2_knn_graph `{Numpy} (lib : Lib) {U} (utils : U) (r : draws)
    (tr : list (event lib)) (e : env lib) :
  notebook lib utils r = (tr, Ok e) →
  let s := cell_split (X (e_data e)) (y (e_data e)) in
  let g := e_knn e in
  (distance_scipy_spatial lib (np_T (X_train s)) 10 "euclidean"
   = Returned (dist g, idx g)
   ∧ calls_of KDistance tr
     = [returned (GraphDistanceScipySpatial (np_T (X_train s)) 10 "euclidean")])
  ∧ calls_of KAdjacency tr = [returned (GraphAdjacency (dist g) (idx g))]
  ∧ (∃ A0, adjacency lib (dist g) (idx g) = Returned A0
           ∧ A g = astype_float32 lib A0)
  ∧ (∀ d' z o, Ev (PrintGraphSize d' z) o ∈ tr → d' = d ∧ z = nnz lib (A g))
  ∧ calls_of KPltSpy tr = [returned (PltSpy (A g) 2 "black")]
  ∧ calls_of KCoarsen tr = [returned (CoarseningCoarsen (A g) 3 false)]
  ∧ coarsen lib (A g) 3 false
    = Returned (graphs (e_pyramid e), perm (e_pyramid e))
  ∧ shape lib (A g) = (d, d) ∧ d = 100.
Proof.
  intros Hrun s g. apply notebook_ok_inv in Hrun as [Hc ->].
  pose proof (c_split _ _ Hc) as Hs. fold s in Hs.
  subst g. split_and!.
  - rewrite <- Hs. apply Hc.
  - rewrite <- Hs. calls_of_run.
  - calls_of_run.
  - apply Hc.
  - intros d' z o Hin. in_trace Hin. done.
  - calls_of_run.
  - calls_of_run.
  - apply Hc.
  - apply Hc.
  - reflexivity.
Qed.

Lemma C2_knn_graph_witness :
  notebook Qmodel.lib () Qmodel.sample
  = (Qmodel.sample_trace, Ok Qmodel.sample_env)
  ∧ shape Qmodel.lib (A (e_knn Qmodel.sample_env)) = (d, d).
Proof.
  split; [exact sample_run|].
  destruct (C2_knn_graph Qmodel.lib () Qmodel.sample Qmodel.sample_trace
              Qmodel.sample_env sample_run)
    as (_ & _ & _ & _ & _ & _ & _ & Hshape & _).
  exact Hshape.
Defined.

(** C3 — [coarsening.coarsen(A, levels=3, self_connections=False)] returns
    the pair [(graphs, perm)].  That one [perm] is the second argument of
    the three [coarsening.perm_data] calls, made on the training,
    validation and testing splits of cell 3 in that order; their results
    are what [X_train], [X_val] and [X_test] denote from then on, in
    [model.fit] and [model.evaluate].  No other call receives a
    permutation. *)
Theorem C3_one_permutation `{Numpy} (lib : Lib) {U} (utils : U) (r : draws)
    (tr : list (event lib)) (e : env lib) :
  notebook lib utils r = (tr, Ok e) →
  let s := cell_split (X (e_data e)) (y (e_data e)) in
  let p := e_pyramid e in
  let m := e_trained e in
  (coarsen lib (A (e_knn e)) 3 false = Returned (graphs p, perm p)
   ∧ calls_of KCoarsen tr = [returned (CoarseningCoarsen (A (e_knn e)) 3 false)])
  ∧ calls_of KPermData tr
    = [ returned (CoarseningPermData (X_train s) (perm p));
        returned (CoarseningPermData (X_val s) (perm p));
        returned (CoarseningPermData (X_test s) (perm p)) ]
  ∧ (perm_data lib (X_train s) (perm p) = Returned (perm_X_train p)
     ∧ perm_data lib (X_val s) (perm p) = Returned (perm_X_val p)
     ∧ perm_data lib (X_test s) (perm p) = Returned (perm_X_test p))
  ∧ (∀ X' perm' o, Ev (CoarseningPermData X' perm') o ∈ tr → perm' = perm p)
  ∧ (∀ ev, ev ∈ tr → kind_of (ev_call ev) ≠ KPermData →
       ∀ X' perm', ev_call ev ≠ CoarseningPermData X' perm')
  ∧ calls_of KFit tr
    = [ returned (ModelFit (model m) (perm_X_train p) (y_train s)
                    (perm_X_val p) (y_val s)) ]
  ∧ calls_of KEvaluate tr
    = [ returned (ModelEvaluate (model m) (perm_X_test p) (y_test s)) ].
Proof.
  intros Hrun s p m. apply notebook_ok_inv in Hrun as [Hc ->].
  pose proof (c_split _ _ Hc) as Hs. fold s in Hs.
  subst p m. rewrite <- Hs. split_and!; try apply Hc; try calls_of_run.
  - intros Xp q o Hin. in_trace Hin; done.
  - intros ev _ Hk Xp q Heq. by rewrite Heq in Hk.
Qed.

Lemma C3_one_permutation_witness :
  notebook Qmodel.lib () Qmodel.sample
  = (Qmodel.sample_trace, Ok Qmodel.sample_env)
  ∧ length (calls_of KPermData Qmodel.sample_trace) = 3%nat.
Proof.
  split; [exact sample_run|].
  destruct (C3_one_permutation Qmodel.lib () Qmodel.sample Qmodel.sample_trace
              Qmodel.sample_env sample_run)
    as (_ & Hcalls & _).
  by rewrite Hcalls.
Defined.

(** C4 — [L] is obtained by applying [graph.laplacian(A, normalized=True)]
    to every adjacency matrix of the list [graphs] returned by the
    coarsening, in order: there is one call and one Laplacian per graph of
    the pyramid, [len(L) = len(graphs)], and [L] is the first argument of
    [models.cgcnn]. *)
Theorem C4_laplacians `{Numpy} (lib : Lib) {U} (utils : U) (r : draws)
    (tr : list (event lib)) (e : env lib) :
  notebook lib utils r = (tr, Ok e) →
  let p := e_pyramid e in
  coarsen lib (A (e_knn e)) 3 false = Returned (graphs p, perm p)
  ∧ calls_of KLaplacian tr
    = map (λ A, returned (GraphLaplacian A true)) (graphs p)
  ∧ Forall2 (λ A La, laplacian lib A true = Returned La) (graphs p) (L e)
  ∧ (∀ i A, graphs p !! i = Some A →
       ∃ La, L e !! i = Some La ∧ laplacian lib A true = Returned La)
  ∧ length (L e) = length (graphs p)
  ∧ calls_of KCgcnn tr = [returned (ModelsCgcnn (L e) (params (e_hyper e)))]
  ∧ cgcnn lib (L e) (params (e_hyper e)) = Returned (model (e_trained e)).
Proof.
  intros Hrun p. apply notebook_ok_inv in Hrun as [Hc ->].
  pose proof (c_laplacian _ _ Hc) as Hlap. fold p in Hlap.
  subst p. split_and!; try calls_of_run.
  - apply Hc.
  - exact Hlap.
  - intros i A HA.
    destruct (Forall2_lookup_l _ _ _ _ _ Hlap HA) as (La & HLa & Hcall).
    by exists La.
  - symmetry. by eapply Forall2_length.
  - apply Hc.
Qed.

Lemma C4_laplacians_witness :
  notebook Qmodel.lib () Qmodel.sample
  = (Qmodel.sample_trace, Ok Qmodel.sample_env)
  ∧ length (L Qmodel.sample_env)
    = length (graphs (e_pyramid Qmodel.sample_env)).
Proof.
  split; [exact sample_run|].
  destruct (C4_laplacians Qmodel.lib () Qmodel.sample Qmodel.sample_trace
              Qmodel.sample_env sample_run)
    as (_ & _ & _ & _ & Hlen & _).
  exact Hlen.
Defined.

Example sample_pyramid :
  L Qmodel.sample_env = [(100, 100); (50, 50); (25, 25); (12, 12)].
Proof. vm_compute. reflexivity. Qed.

(** C5 — The object returned by [models.cgcnn(L, **params)] has its [fit]
    method called exactly once, with the arguments
    [(X_train, y_train, X_val, y_val)] in that order, the two data
    arguments being the permuted splits; the call returns the triple
    [(accuracy, loss, t_step)].  Its [evaluate] method is called
    afterwards, with [(X_test, y_test)]. *)
Theorem C5_fit_then_evaluate `{Numpy} (lib : Lib) {U} (utils : U) (r : draws)
    (tr : list (event lib)) (e : env lib) :
  notebook lib utils r = (tr, Ok e) →
  let s := cell_split (X (e_data e)) (y (e_data e)) in
  let p := e_pyramid e in
  let m := e_trained e in
  let fit_call :=
    returned (ModelFit (model m) (perm_X_train p) (y_train s)
                (perm_X_val p) (y_val s)) in
  let evaluate_call :=
    returned (ModelEvaluate (model m) (perm_X_test p) (y_test s)) in
  cgcnn lib (L e) (params (e_hyper e)) = Returned (model m)
  ∧ calls_of KFit tr = [fit_call]
  ∧ (perm_data lib (X_train s) (perm p) = Returned (perm_X_train p)
     ∧ perm_data lib (X_val s) (perm p) = Returned (perm_X_val p)
     ∧ perm_data lib (X_test s) (perm p) = Returned (perm_X_test p))
  ∧ fit lib (model m) (perm_X_train p) (y_train s) (perm_X_val p) (y_val s)
    = Returned (accuracy m, loss m, t_step m)
  ∧ calls_of KEvaluate tr = [evaluate_call]
  ∧ evaluate lib (model m) (perm_X_test p) (y_test s) = Returned (res e)
  ∧ (∃ before between after,
       tr = before ++ [fit_call] ++ between ++ [evaluate_call] ++ after).
Proof.
  intros Hrun s p m fit_call evaluate_call.
  apply notebook_ok_inv in Hrun as [Hc ->].
  pose proof (c_split _ _ Hc) as Hs. fold s in Hs.
  subst p m fit_call evaluate_call. rewrite <- Hs.
  split_and!; try apply Hc; try calls_of_run.
  unfold trace_of.
  exists (data_trace (e_data e)
          ++ graph_trace (e_split e) (e_knn e)
          ++ coarsen_trace (e_split e) (e_knn e) (e_pyramid e)
          ++ laplacian_trace (e_pyramid e) (L e)
          ++ [returned (ModelsCgcnn (L e) (params (e_hyper e)))]),
    (curves_trace (e_trained e) ++ time_trace (e_trained e)),
    [returned (PrintRes0 (res_item0 lib (res e)))].
  unfold fit_trace, evaluate_trace, time_trace.
  rewrite <- !app_assoc. reflexivity.
Qed.

Lemma C5_fit_then_evaluate_witness :
  notebook Qmodel.lib () Qmodel.sample
  = (Qmodel.sample_trace, Ok Qmodel.sample_env)
  ∧ length (calls_of KFit Qmodel.sample_trace) = 1%nat.
Proof.
  split; [exact sample_run|].
  destruct (C5_fit_then_evaluate Qmodel.lib () Qmodel.sample
              Qmodel.sample_trace Qmodel.sample_env sample_run)
    as (_ & Hcalls & _).
  by rewrite Hcalls.
Defined.

(** C6 — The script is one linear sequence.  Whatever the external
    modules answer, the calls of a run are an initial segment of one fixed
    sequence, the pipeline; a run that reaches the end performs exactly
    that sequence: the synthetic data, then
    [graph.distance_scipy_spatial], then [coarsening.coarsen], then
    [graph.laplacian] on each graph of the pyramid, then [models.cgcnn],
    then [fit], then the plots of the results.  Every call receives
    values bound by the calls before it. *)
Theorem C6_linear_sequence `{Numpy} (lib : Lib) {U} (utils : U) (r : draws)
    (tr : list (event lib)) (out : result (env lib)) :
  notebook lib utils r = (tr, out) →
  (∃ k, kinds tr `prefix_of` pipeline k)
  ∧ (∀ e, out = Ok e →
       kinds tr = pipeline (length (graphs (e_pyramid e)))
       ∧ tr = data_trace (e_data e)
              ++ graph_trace (e_split e) (e_knn e)
              ++ coarsen_trace (e_split e) (e_knn e) (e_pyramid e)
              ++ laplacian_trace (e_pyramid e) (L e)
              ++ fit_trace (e_split e) (e_pyramid e) (L e) (e_hyper e)
                   (e_trained e)
              ++ curves_trace (e_trained e)
              ++ time_trace (e_trained e)
              ++ evaluate_trace (e_split e) (e_pyramid e) (e_trained e)
                   (res e)
       ∧ completes r e).
Proof.
  intros Hrun. split.
  - by apply (notebook_prefix utils r tr out).
  - intros e ->. apply notebook_ok_inv in Hrun as [Hc ->].
    split_and!; [apply kinds_trace_of|reflexivity|exact Hc].
Qed.

Lemma C6_linear_sequence_witness :
  notebook Qmodel.lib () Qmodel.sample
  = (Qmodel.sample_trace, Ok Qmodel.sample_env)
  ∧ kinds Qmodel.sample_trace
    = pipeline (length (graphs (e_pyramid Qmodel.sample_env))).
Proof.
  split; [exact sample_run|].
  destruct (C6_linear_sequence Qmodel.lib () Qmodel.sample Qmodel.sample_trace
              (Ok Qmodel.sample_env) sample_run)
    as (_ & Hok).
  destruct (Hok Qmodel.sample_env eq_refl) as (Hkinds & _).
  exact Hkinds.
Defined.

Example sample_kinds : kinds Qmodel.sample_trace = pipeline 4.
Proof. reflexivity. Qed.

(** C8 — With [n = 10000], [n_train = 5000] and [n_val = 1000], the splits
    of cell 3 are the row slices [0, 5000), [5000, 6000) and [6000, 10000)
    of [X], and the same slices of [y]: they have 5000, 1000 and 4000
    entries, their concatenation in that order is the whole array, and
    entry [i] of a split of [X] and entry [i] of the same split of [y] are
    the same original row ([i], [5000 + i] or [6000 + i]). *)
Theorem C8_split_slices `{Numpy} (lib : Lib) (r : draws) (dt : data) :
  (cell_data lib r).2 = Ok dt →
  Z.of_nat (length (draw_X r)) = n →
  Z.of_nat (length (draw_noise r)) = n →
  let s := cell_split (X dt) (y dt) in
  (n = 10000 ∧ n_train = 5000 ∧ n_val = 1000)
  ∧ (Z.of_nat (length (X dt)) = n ∧ Z.of_nat (length (y dt)) = n)
  ∧ (X_train s = take (Z.to_nat 5000) (X dt)
     ∧ X_val s = take (Z.to_nat 1000) (drop (Z.to_nat 5000) (X dt))
     ∧ X_test s = drop (Z.to_nat 6000) (X dt))
  ∧ (y_train s = take (Z.to_nat 5000) (y dt)
     ∧ y_val s = take (Z.to_nat 1000) (drop (Z.to_nat 5000) (y dt))
     ∧ y_test s = drop (Z.to_nat 6000) (y dt))
  ∧ (Z.of_nat (length (X_train s)) = 5000
     ∧ Z.of_nat (length (X_val s)) = 1000
     ∧ Z.of_nat (length (X_test s)) = 4000)
  ∧ X_train s ++ X_val s ++ X_test s = X dt
  ∧ y_train s ++ y_val s ++ y_test s = y dt
  ∧ (∀ i, 0 ≤ i < 5000 →
       X_train s !! Z.to_nat i = X dt !! Z.to_nat i
       ∧ y_train s !! Z.to_nat i = y dt !! Z.to_nat i)
  ∧ (∀ i, 0 ≤ i < 1000 →
       X_val s !! Z.to_nat i = X dt !! Z.to_nat (5000 + i)
       ∧ y_val s !! Z.to_nat i = y dt !! Z.to_nat (5000 + i))
  ∧ (∀ i, 0 ≤ i < 4000 →
       X_test s !! Z.to_nat i = X dt !! Z.to_nat (6000 + i)
       ∧ y_test s !! Z.to_nat i = y dt !! Z.to_nat (6000 + i)).
Proof.
  intros Hd HdX Hdn s.
  destruct (cell_data_lengths (lib := lib) r dt Hd) as [HlX Hly].
  assert (Z.of_nat (length (X dt)) = n) as HX by lia.
  assert (Z.of_nat (length (y dt)) = n) as Hy by lia.
  destruct (split_slices (X dt) HX) as (HX1 & HX2 & HX3).
  destruct (split_slices (y dt) Hy) as (Hy1 & Hy2 & Hy3).
  assert (n = 10000) as Hn by done.
  subst s. unfold cell_split.
  cbn [X_train X_val X_test y_train y_val y_test].
  rewrite HX1, HX2, HX3, Hy1, Hy2, Hy3.
  split_and!; try done.
  - rewrite length_take. lia.
  - rewrite length_take, length_drop. lia.
  - rewrite length_drop. lia.
  - rewrite <- (three_slices (X dt) 5000 6000) at 4 by lia.
    by rewrite slice_to, slice_range, slice_from by lia.
  - rewrite <- (three_slices (y dt) 5000 6000) at 4 by lia.
    by rewrite slice_to, slice_range, slice_from by lia.
  - intros i Hi. rewrite !lookup_take_lt by lia. done.
  - intros i Hi. rewrite !lookup_take_lt, !lookup_drop by lia.
    split; f_equal; lia.
  - intros i Hi. rewrite !lookup_drop. split; f_equal; lia.
Qed.

Lemma C8_split_slices_witness :
  (cell_data Qmodel.lib Qmodel.full_sample).2 = Ok Qmodel.full_data
  ∧ Z.of_nat (length (draw_X Qmodel.full_sample)) = n
  ∧ Z.of_nat (length (draw_noise Qmodel.full_sample)) = n
  ∧ Z.of_nat
      (length (X_val (cell_split (X Qmodel.full_data) (y Qmodel.full_data))))
    = 1000.
Proof.
  assert ((cell_data Qmodel.lib Qmodel.full_sample).2 = Ok Qmodel.full_data)
    as Hd by reflexivity.
  assert (Z.of_nat (length (draw_X Qmodel.full_sample)) = n)
    as HX by (vm_compute; reflexivity).
  assert (Z.of_nat (length (draw_noise Qmodel.full_sample)) = n)
    as Hn by (vm_compute; reflexivity).
  split; [exact Hd|]. split; [exact HX|]. split; [exact Hn|].
  destruct (C8_split_slices Qmodel.lib Qmodel.full_sample Qmodel.full_data
              Hd HX Hn)
    as (_ & _ & _ & _ & (_ & Hval & _) & _).
  exact Hval.
Defined.

(** C9 — After the label construction of cell 2, for every sample index
    [i]: [y[i] = 0] if [t[i] > mean(t) + 0.4*std(t)], [y[i] = 2] if
    [t[i] < mean(t) - 0.4*std(t)], and [y[i] = 1] otherwise.  Because
    [std(t) >= 0] the two strict conditions never hold together, so one
    rule applies to each sample, and every entry of [y] is 0, 1 or 2. *)
Theorem C9_labels `{NumpyLaws} (lib : Lib) (r : draws) (dt : data)
    (i : nat) (x : F) :
  (cell_data lib r).2 = Ok dt →
  t dt !! i = Some x →
  let above :=
    fltb (fadd (np_mean (t dt)) (fmul (flit 0.4) (np_std (t dt)))) x in
  let below :=
    fltb x (fsub (np_mean (t dt)) (fmul (flit 0.4) (np_std (t dt)))) in
  fleb (flit 0) (np_std (t dt)) = true
  ∧ (above = true → y dt !! i = Some 0)
  ∧ (below = true → y dt !! i = Some 2)
  ∧ (above = false → below = false → y dt !! i = Some 1)
  ∧ ¬ (above = true ∧ below = true)
  ∧ (∃ v, y dt !! i = Some v ∧ (v = 0 ∨ v = 1 ∨ v = 2))
  ∧ (∀ v, v ∈ y dt → v = 0 ∨ v = 1 ∨ v = 2)
  ∧ length (y dt) = length (t dt).
Proof.
  intros Hd Hx above below.
  rewrite (cell_data_y r dt Hd).
  pose proof (classify_lookup (t dt) i x Hx) as Hy.
  fold below in Hy. fold above in Hy.
  assert (above = true → below = true → False) as Hex
    by apply (thresholds_exclusive (t dt) x).
  split_and!.
  - apply np_std_nonneg.
  - intros Ha. rewrite Hy, Ha. destruct below eqn:Hb; [by destruct Hex|done].
  - intros Hb. by rewrite Hy, Hb.
  - intros Ha Hb. by rewrite Hy, Ha, Hb.
  - intros [Ha Hb]. by apply Hex.
  - rewrite Hy. eexists. split; [done|]. repeat case_match; auto.
  - apply classify_range.
  - apply classify_length.
Qed.

Example sample_labels : y Qmodel.sample_data = [2; 1; 0; 0].
Proof. vm_compute. reflexivity. Qed.

Example sample_target :
  t Qmodel.sample_data = [(1 # 3)%Q; (3 # 5)%Q; (5 # 7)%Q; (7 # 9)%Q].
Proof. vm_compute. reflexivity. Qed.

Lemma C9_labels_witness :
  (cell_data Qmodel.lib Qmodel.sample).2 = Ok Qmodel.sample_data
  ∧ t Qmodel.sample_data !! 0%nat = Some (1 # 3)%Q
  ∧ y Qmodel.sample_data !! 0%nat = Some 2.
Proof.
  assert ((cell_data Qmodel.lib Qmodel.sample).2 = Ok Qmodel.sample_data)
    as Hd by reflexivity.
  assert (t Qmodel.sample_data !! 0%nat = Some (1 # 3)%Q)
    as Hx by (vm_compute; reflexivity).
  split; [exact Hd|]. split; [exact Hx|].
  destruct (C9_labels Qmodel.lib Qmodel.sample Qmodel.sample_data 0 (1 # 3)%Q
              Hd Hx) as (_ & _ & Hbelow & _).
  apply Hbelow. vm_compute. reflexivity.
Defined.

(** C10 — With [C = y.max() + 1], the assertion [C == np.unique(y).size]
    of cell 7 succeeds exactly when the distinct values of the [uint8]
    array [y] are [0, 1, ..., y.max()] with no gap (the labels are below
    255, so that [y.max() + 1] is the same number in [uint8] and in
    [int64]).  It fails when class 0
    is empty while class 2 is not.  Hence whenever the script gets past the
    assertion, the labels are exactly the values [0 .. C - 1]. *)
Theorem C10_class_count `{Numpy} (lib : Lib) (x : Z) (l : list Z) :
  Forall (λ v, 0 ≤ v < 255) (x :: l) →
  let ymax := foldl Z.max x l in
  ((∃ h, cell_params lib (x :: l) = ([], Ok h) ∧ C h = ymax + 1)
   ↔ (∀ v, v ∈ x :: l ↔ 0 ≤ v ≤ ymax))
  ∧ (ymax + 1 = Z.of_nat (length (Py.np_unique (x :: l)))
     ↔ (∀ v, v ∈ x :: l ↔ 0 ≤ v ≤ ymax))
  ∧ (0 ∉ x :: l → 2 ∈ x :: l →
     cell_params lib (x :: l) = ([], Err (AssertionError AssertClasses)))
  ∧ (∀ tr h, cell_params lib (x :: l) = (tr, Ok h) →
     ∀ v, v ∈ x :: l ↔ 0 ≤ v < C h).
Proof.
  intros Hu8 ymax.
  assert (Forall (λ v, 0 ≤ v) (x :: l)) as Hpos.
  { eapply Forall_impl; [exact Hu8|]. intros; cbn beta in *; lia. }
  assert (∀ v, v ∈ x :: l → 0 ≤ v ≤ ymax) as Hrange.
  { intros v Hv. rewrite Forall_forall in Hpos.
    pose proof (Hpos v Hv) as Hv0. cbn beta in Hv0.
    pose proof (foldl_max_ge x l) as [Hx Hl]. rewrite Forall_forall in Hl.
    apply elem_of_cons in Hv as [->|Hv]; [done|].
    pose proof (Hl v Hv) as Hvm. cbn beta in Hvm. done. }
  pose proof (unique_size_full x l Hpos) as Hfull. fold ymax in Hfull.
  assert (ymax + 1 = Z.of_nat (length (Py.np_unique (x :: l)))
          ↔ (∀ v, v ∈ x :: l ↔ 0 ≤ v ≤ ymax)) as Hiff.
  { rewrite Hfull. split; [intros Hall v; split; auto|intros Hall v; apply Hall]. }
  pose proof (cell_params_cases (lib := lib) (x :: l)) as Hrun.
  destruct (cell_params lib (x :: l)) as [tr [h|e]].
  - destruct Hrun as (-> & x' & l' & [= <- <-] & HC & Hsize & _).
    fold ymax in HC.
    assert (ymax + 1 = Z.of_nat (length (Py.np_unique (x :: l)))) as Heq
      by lia.
    split_and!.
    + split; [intros _; by apply Hiff|intros _; by exists h].
    + done.
    + intros H0 _. exfalso. apply H0, Hiff; [done|].
      specialize (Hrange x ltac:(by left)). lia.
    + intros tr' h' [= <- <-] v. rewrite (proj1 Hiff Heq v). lia.
  - destruct Hrun as (-> & [[[=] _]|(x' & l' & [= <- <-] & Hne & ->)]).
    fold ymax in Hne.
    split_and!.
    + split; [intros (h & [=] & _)|intros Hall; by apply Hiff in Hall].
    + done.
    + done.
    + intros tr' h' [=].
Qed.

Lemma C10_class_count_witness :
  Forall (λ v, 0 ≤ v < 255) [2; 1; 0; 0]
  ∧ ∀ v, v ∈ [2; 1; 0; 0] ↔ 0 ≤ v ≤ 2.
Proof.
  assert (Forall (λ v, 0 ≤ v < 255) [2; 1; 0; 0]) as Hu8
    by (repeat constructor; lia).
  split; [exact Hu8|].
  destruct (C10_class_count Qmodel.lib 2 [1; 0; 0] Hu8) as (_ & Hiff & _).
  apply Hiff. vm_compute. reflexivity.
Defined.

Example labels_1_2_rejected :
  cell_params Qmodel.lib [1; 2; 2; 1]
  = ([], Err (AssertionError AssertClasses)).
Proof. reflexivity. Qed.


(** * Further properties of the cells *)

(** ** The class counts printed by cell 2 *)

Lemma sum_list_indicator (x : Z) (l : list Z) :
  NoDup l → x ∈ l →
  sum_list (map (λ v, if decide (x = v) then 1%nat else 0%nat) l) = 1%nat.
Proof.
  induction 1 as [|v l Hv Hnd IH]; intros Hx; [by apply elem_of_nil in Hx|].
  cbn [map sum_list sum_list_with]. destruct (decide (x = v)) as [->|Hne].
  - assert (sum_list (map (λ v0, if decide (v = v0) then 1%nat else 0%nat) l)
            = 0%nat) as ->; [|done].
    clear IH Hx Hnd. induction l as [|w l IH]; [done|].
    cbn [map sum_list sum_list_with].
    rewrite decide_False by (intros ->; apply Hv; by left).
    rewrite IH; [done|]. intros Hin. apply Hv. by right.
  - apply elem_of_cons in Hx as [->|Hx]; [done|]. by rewrite IH.
Qed.

Lemma sum_list_counts (l y : list Z) :
  NoDup l → (∀ x, x ∈ y → x ∈ l) →
  sum_list (map (λ v, length (filter (λ x, x = v) y)) l) = length y.
Proof.
  intros Hnd. induction y as [|x y IH]; intros Hsub.
  - clear. induction l as [|v l IHl]; [done|]. cbn in *. by rewrite IHl.
  - transitivity
      (sum_list (map (λ v, if decide (x = v) then 1%nat else 0%nat) l)
       + sum_list (map (λ v, length (filter (λ x, x = v) y)) l))%nat.
    + clear. induction l as [|v l IHl]; [done|].
      cbn [map sum_list sum_list_with]. rewrite IHl, filter_cons.
      repeat case_decide; simplify_eq; cbn [length]; unfold id; lia.
    + rewrite sum_list_indicator by (done || apply Hsub; by left).
      rewrite IH; [done|]. intros z Hz. apply Hsub. by right.
Qed.

Lemma np_unique_counts_sum (y : list Z) :
  sum_list (Py.np_unique_counts y) = length y.
Proof.
  unfold Py.np_unique_counts. apply sum_list_counts.
  - apply NoDup_np_unique.
  - intros x Hx. by apply elem_of_np_unique.
Qed.

Lemma np_unique_counts_positive (y : list Z) :
  Forall (λ k, 1 ≤ k)%nat (Py.np_unique_counts y).
Proof.
  unfold Py.np_unique_counts. apply Forall_fmap, Forall_forall.
  intros v Hv. rewrite elem_of_np_unique in Hv. cbn.
  assert (v ∈ filter (λ x, x = v) y) as Hin by (by apply list_elem_of_filter).
  destruct (filter (λ x, x = v) y); [by apply elem_of_nil in Hin|cbn; lia].
Qed.

(** At most three classes: the distinct labels are among 0, 1 and 2. *)
Lemma np_unique_labels `{Numpy} (t : list F) :
  (length (Py.np_unique (classify t)) ≤ 3)%nat.
Proof.
  change 3%nat with (length [0; 1; 2]). apply submseteq_length.
  apply NoDup_submseteq; [apply NoDup_np_unique|].
  intros v Hv. rewrite elem_of_np_unique in Hv.
  apply classify_range in Hv as [-> | [-> | ->]]; repeat constructor.
Qed.

(** X1 — The class counts that cell 2 prints ([np.unique(y,
    return_counts=True)[1]]) have one entry per class that occurs, at most
    three; no entry is zero, and they add up to the number of samples. *)
Theorem class_imbalance_counts `{Numpy} (lib : Lib) (r : draws) (dt : data)
    (counts : list nat) :
  (cell_data lib r).2 = Ok dt →
  returned (PrintClassImbalance counts) ∈ (cell_data lib r).1 →
  counts = Py.np_unique_counts (y dt)
  ∧ length counts = length (Py.np_unique (y dt))
  ∧ (1 ≤ length counts ≤ 3 ∨ t dt = [])%nat
  ∧ Forall (λ k, 1 ≤ k)%nat counts
  ∧ sum_list counts = length (t dt).
Proof.
  intros Hd Hin.
  destruct (cell_data_run (lib := lib) r) as (dt' & Hd' & Htr).
  rewrite Hd in Hd'. injection Hd' as <-. rewrite Htr in Hin.
  unfold data_trace, returned in Hin.
  repeat (apply elem_of_cons in Hin as [Hin|Hin]); try done;
    [injection Hin as ->|by apply elem_of_nil in Hin].
  pose proof (cell_data_y (lib := lib) r dt Hd) as Hy.
  split_and!.
  - done.
  - unfold Py.np_unique_counts. by rewrite length_map.
  - unfold Py.np_unique_counts. rewrite length_map, Hy.
    destruct (t dt) as [|x0 t0] eqn:Ht; [by right|left]. rewrite <- Ht.
    split; [|apply np_unique_labels].
    assert (length (classify (t dt)) ≠ 0)%nat as Hne
      by (rewrite classify_length, Ht; done).
    destruct (classify (t dt)) as [|v l] eqn:Hc; [done|].
    assert (v ∈ Py.np_unique (v :: l)) as Hv
      by (apply elem_of_np_unique; by left).
    destruct (Py.np_unique (v :: l)); [by apply elem_of_nil in Hv|cbn; lia].
  - apply np_unique_counts_positive.
  - by rewrite np_unique_counts_sum, Hy, classify_length.
Qed.

Lemma class_imbalance_counts_witness :
  (cell_data Qmodel.lib Qmodel.sample).2 = Ok Qmodel.sample_data
  ∧ returned (PrintClassImbalance [2; 1; 1]%nat)
    ∈ (cell_data Qmodel.lib Qmodel.sample).1
  ∧ sum_list [2; 1; 1]%nat = length (t Qmodel.sample_data).
Proof.
  assert ((cell_data Qmodel.lib Qmodel.sample).2 = Ok Qmodel.sample_data)
    as Hd by reflexivity.
  assert (returned (PrintClassImbalance [2; 1; 1]%nat)
          ∈ (cell_data Qmodel.lib Qmodel.sample).1) as Hin.
  { do 2 apply list_elem_of_further. apply list_elem_of_here. }
  split; [exact Hd|]. split; [exact Hin|].
  destruct (class_imbalance_counts Qmodel.lib Qmodel.sample Qmodel.sample_data
              [2; 1; 1]%nat Hd Hin) as (_ & _ & _ & _ & Hsum).
  exact Hsum.
Defined.


(** ** The split on a data set of any size *)

Section AnySize.
Context {T : Type}.
Implicit Types l : list T.

Lemma slice_to_any l a :
  0 ≤ a → Py.slice None (Some a) l = take (Z.to_nat a) l.
Proof.
  intros Ha. unfold Py.slice, Py.clamp_index. cbn [from_option].
  destruct (Z.ltb_spec a 0); [lia|].
  destruct (Z.le_gt_cases a (Z.of_nat (length l))).
  - by rewrite Z.min_r, Z.max_r by lia.
  - rewrite Z.min_l, Z.max_r, Nat2Z.id by lia.
    by rewrite !take_ge by lia.
Qed.

Lemma slice_from_any l a :
  0 ≤ a → Py.slice (Some a) None l = drop (Z.to_nat a) l.
Proof.
  intros Ha. unfold Py.slice, Py.clamp_index. cbn [from_option].
  destruct (Z.ltb_spec a 0); [lia|].
  rewrite Nat2Z.id, firstn_all.
  destruct (Z.le_gt_cases a (Z.of_nat (length l))).
  - by rewrite Z.min_r, Z.max_r by lia.
  - rewrite Z.min_l, Z.max_r, Nat2Z.id by lia.
    by rewrite !drop_ge by lia.
Qed.

Lemma slice_range_any l a b :
  0 ≤ a ≤ b →
  Py.slice (Some a) (Some b) l = drop (Z.to_nat a) (take (Z.to_nat b) l).
Proof.
  intros Hab. unfold Py.slice, Py.clamp_index. cbn [from_option].
  destruct (Z.ltb_spec a 0), (Z.ltb_spec b 0); try lia.
  destruct (Z.le_gt_cases b (Z.of_nat (length l))).
  - by rewrite !Z.min_r, !Z.max_r by lia.
  - rewrite (Z.min_l _ b), (Z.max_r 0 (Z.of_nat _)), Nat2Z.id by lia.
    rewrite !take_ge by lia.
    destruct (Z.le_gt_cases a (Z.of_nat (length l))).
    + by rewrite Z.min_r, Z.max_r by lia.
    + rewrite Z.min_l, Z.max_r, Nat2Z.id by lia. by rewrite !drop_ge by lia.
Qed.

(** Consecutive slices always cut a list into three pieces. *)
Lemma three_slices_any l a b :
  0 ≤ a ≤ b →
  Py.slice None (Some a) l ++ Py.slice (Some a) (Some b) l
  ++ Py.slice (Some b) None l = l.
Proof.
  intros Hab.
  rewrite slice_to_any, slice_range_any, slice_from_any by lia.
  replace (take (Z.to_nat a) l)
    with (take (Z.to_nat a) (take (Z.to_nat b) l))
    by (rewrite take_take; f_equal; lia).
  by rewrite app_assoc, !take_drop.
Qed.

End AnySize.

(** X2 — Whatever the number of rows, cell 3 cuts [X] and [y] into three
    consecutive pieces: nothing is lost, duplicated or reordered.  The
    pieces have at most 5000, 1000 and the remaining entries; with fewer
    than 5000 rows the training set is the whole data set and the other
    two are empty, and nothing is raised. *)
Theorem split_any_size `{Numpy} (Xd : list (list F)) (yd : list Z) :
  let s := cell_split Xd yd in
  X_train s ++ X_val s ++ X_test s = Xd
  ∧ y_train s ++ y_val s ++ y_test s = yd
  ∧ (length (X_train s) = Nat.min (Z.to_nat 5000) (length Xd)
     ∧ length (X_val s)
       = Nat.min (Z.to_nat 1000) (length Xd - Z.to_nat 5000)
     ∧ length (X_test s) = length Xd - Z.to_nat 6000)%nat
  ∧ ((length Xd ≤ Z.to_nat 5000)%nat →
       X_train s = Xd ∧ X_val s = [] ∧ X_test s = [])
  ∧ (length Xd = length yd →
       length (X_train s) = length (y_train s)
       ∧ length (X_val s) = length (y_val s)
       ∧ length (X_test s) = length (y_test s)).
Proof.
  intros s. subst s. unfold cell_split.
  cbn [X_train X_val X_test y_train y_val y_test].
  assert (n_train = 5000 ∧ n_train + n_val = 6000) as [-> ->] by done.
  split_and!.
  - by apply three_slices_any.
  - by apply three_slices_any.
  - rewrite slice_to_any, length_take by lia. lia.
  - rewrite slice_range_any, length_drop, length_take by lia. lia.
  - rewrite slice_from_any, length_drop by lia. lia.
  - intros Hlen.
    rewrite slice_to_any, slice_range_any, slice_from_any by lia.
    rewrite !take_ge, !drop_ge by lia. done.
  - intros Hlen.
    rewrite !slice_to_any, !slice_range_any, !slice_from_any by lia.
    rewrite !length_take, !length_drop, !length_take. lia.
Qed.

Lemma split_any_size_witness :
  let Xd := [[1%Q]; [2%Q]; [3%Q]] in
  let yd := [0; 1; 2] in
  (length Xd ≤ Z.to_nat 5000)%nat
  ∧ X_train (cell_split (H := Qmodel.numpy) Xd yd) = Xd
  ∧ length Xd = length yd
  ∧ length (X_test (cell_split (H := Qmodel.numpy) Xd yd))
    = length (y_test (cell_split (H := Qmodel.numpy) Xd yd)).
Proof.
  intros Xd yd.
  assert (length Xd ≤ Z.to_nat 5000)%nat as Hle by (unfold Xd; cbn [length]; lia).
  assert (length Xd = length yd) as Hlen by reflexivity.
  destruct (split_any_size (H := Qmodel.numpy) Xd yd)
    as (_ & _ & _ & Hsmall & Hsame).
  split; [exact Hle|]. split; [exact (proj1 (Hsmall Hle))|].
  split; [exact Hlen|]. exact (proj2 (proj2 (Hsame Hlen))).
Defined.

Example split_three_rows :
  X_val (cell_split (H := Qmodel.numpy) [[1%Q]; [2%Q]; [3%Q]] [0; 1; 2]) = [].
Proof. vm_compute. reflexivity. Qed.

(** ** Feature communities *)

Lemma np_repeat_length {T} (v : list T) (k : Z) :
  length (Py.np_repeat v k) = (length v * Z.to_nat k)%nat.
Proof.
  unfold Py.np_repeat. induction v as [|x v IH]; [done|].
  cbn [flat_map length]. rewrite length_app, length_replicate, IH. lia.
Qed.

(** Entry [j] of [v.repeat(k)] is entry [j // k] of [v]. *)
Lemma np_repeat_lookup {T} (v : list T) (k : Z) (j : nat) :
  0 < k → Py.np_repeat v k !! j = v !! (j / Z.to_nat k)%nat.
Proof.
  intros Hk. unfold Py.np_repeat. revert j.
  induction v as [|x v IH]; intros j; [done|].
  cbn [flat_map]. destruct (decide (j < Z.to_nat k)%nat) as [Hlt|Hge].
  - rewrite lookup_app_l by (by rewrite length_replicate).
    rewrite lookup_replicate_2 by done. by rewrite Nat.div_small.
  - rewrite lookup_app_r by (rewrite length_replicate; lia).
    rewrite length_replicate, IH.
    replace j with ((j - Z.to_nat k) + 1 * Z.to_nat k)%nat at 2 by lia.
    rewrite Nat.div_add by lia.
    by replace ((j - Z.to_nat k) / Z.to_nat k + 1)%nat
         with (S ((j - Z.to_nat k) / Z.to_nat k)) by lia.
Qed.

(** X3 — The data matrix is structured in communities of twenty features:
    entry [(i, j)] of [X] is the sample drawn, cast to [float32], plus
    entry [j // 20] of [np.linspace(0, 1, 5)], so the features of one block
    of twenty share one offset.  The offset vector has [c * (d // c) = d]
    entries when [np.linspace] returns [c] of them. *)
Theorem feature_communities `{Numpy} (lib : Lib) (r : draws) (dt : data)
    (i j : nat) (row0 : list F) (x0 off : F) :
  (cell_data lib r).2 = Ok dt →
  draw_X r !! i = Some row0 →
  row0 !! j = Some x0 →
  np_linspace (flit 0) (flit 1) c !! (j / 20)%nat = Some off →
  (∃ row, X dt !! i = Some row
          ∧ row !! j = Some (f32 (fadd (f32 x0) off)))
  ∧ (length (np_linspace (flit 0) (flit 1) c) = Z.to_nat c →
     Z.of_nat (length (Py.np_repeat (np_linspace (flit 0) (flit 1) c) (d / c)))
     = d).
Proof.
  intros Hd Hrow Hx Hoff. split.
  - cbv [cell_data bind output ret snd] in Hd. injection Hd as <-. cbn [X].
    rewrite !list_lookup_fmap, Hrow. cbn [fmap option_fmap option_map].
    eexists. split; [done|].
    rewrite lookup_zip_with, list_lookup_fmap, Hx.
    cbn [fmap option_fmap option_map mbind option_bind].
    rewrite np_repeat_lookup by done.
    change (Z.to_nat (d / c)) with 20%nat. by rewrite Hoff.
  - intros Hlen. rewrite np_repeat_length, Hlen. done.
Qed.

Lemma feature_communities_witness :
  (cell_data Qmodel.lib Qmodel.sample).2 = Ok Qmodel.sample_data
  ∧ draw_X Qmodel.sample !! 1%nat = Some (replicate 100 1%Q)
  ∧ replicate 100 1%Q !! 45%nat = Some 1%Q
  ∧ Qmodel.linspace 0 1 c !! (45 / 20)%nat = Some (1 # 2)%Q
  ∧ ∃ row : list Q, X Qmodel.sample_data !! 1%nat = Some row
                    ∧ row !! 45%nat = Some (3 # 2)%Q.
Proof.
  assert ((cell_data Qmodel.lib Qmodel.sample).2 = Ok Qmodel.sample_data)
    as Hd by reflexivity.
  assert (draw_X Qmodel.sample !! 1%nat = Some (replicate 100 1%Q))
    as Hrow by reflexivity.
  assert (replicate 100 1%Q !! 45%nat = Some 1%Q) as Hx by reflexivity.
  assert (Qmodel.linspace 0 1 c !! (45 / 20)%nat = Some (1 # 2)%Q)
    as Hoff by (vm_compute; reflexivity).
  split; [exact Hd|]. split; [exact Hrow|]. split; [exact Hx|].
  split; [exact Hoff|].
  exact (proj1 (feature_communities Qmodel.lib Qmodel.sample
                  Qmodel.sample_data 1 45 (replicate 100 1%Q) 1%Q (1 # 2)%Q
                  Hd Hrow Hx Hoff)).
Defined.


(** ** Labels, whatever the order of floats *)

(** X4 — The two masked assignments of cell 2 run one after the other, so
    the second one wins: a sample below the lower threshold gets label 2
    even if it is also above the upper one; label 0 needs the sample to be
    above the upper threshold and not below the lower one; label 1 is what
    is left.  This holds for every float arithmetic, also one where
    [t.std()] is negative or not a number. *)
Theorem second_assignment_wins `{Numpy} (t : list F) (i : nat) (x : F) :
  t !! i = Some x →
  let above :=
    fltb (fadd (np_mean t) (fmul (flit 0.4) (np_std t))) x in
  let below :=
    fltb x (fsub (np_mean t) (fmul (flit 0.4) (np_std t))) in
  (classify t !! i = Some 2 ↔ below = true)
  ∧ (classify t !! i = Some 0 ↔ above = true ∧ below = false)
  ∧ (classify t !! i = Some 1 ↔ above = false ∧ below = false)
  ∧ (∀ j, (length t ≤ j)%nat → classify t !! j = None).
Proof.
  intros Hx above below.
  rewrite (classify_lookup t i x Hx). fold above below.
  split_and!.
  - destruct below, above; split; (done || by intros [= ?]).
  - destruct below, above; split; (by intros [= ?]) || (by intros [? ?]) || done.
  - destruct below, above; split; (by intros [= ?]) || (by intros [? ?]) || done.
  - intros j Hj. apply lookup_ge_None. by rewrite classify_length.
Qed.

Lemma second_assignment_wins_witness :
  let t := [0%Q] in
  t !! 0%nat = Some 0%Q
  ∧ Qmodel.Qltb (Qred (Qmodel.Qmean t + Qred ((4 # 10) * -1))) 0 = true
  ∧ classify (H := Qmodel.numpy_negative_spread) t !! 0%nat = Some 2.
Proof.
  intros t.
  assert (t !! 0%nat = Some 0%Q) as Hx by reflexivity.
  split; [exact Hx|]. split; [vm_compute; reflexivity|].
  destruct (second_assignment_wins (H := Qmodel.numpy_negative_spread)
              t 0 0%Q Hx) as (Hlabel & _).
  apply Hlabel. vm_compute. reflexivity.
Defined.

(** ** The classes of a run that reaches the end *)

Lemma foldl_max_elem (x : Z) (l : list Z) : foldl Z.max x l ∈ x :: l.
Proof.
  revert x. induction l as [|h tl IH]; intros x; cbn [foldl]; [by left|].
  specialize (IH (Z.max x h)).
  apply elem_of_cons in IH as [Heq|Hin]; [|by do 2 right].
  rewrite Heq. destruct (Z.max_spec x h) as [[_ ->]|[_ ->]];
    [right|]; by left.
Qed.

(** X5 — In a run that reaches the end the number of classes [C] is 1, 2
    or 3 and the labels that occur are exactly [0 .. C - 1].  In
    particular class 0 is never empty: some target is strictly above the
    upper threshold.  [C = 3] exactly when some target is below the lower
    threshold, and the last entry of [params['M']] is that [C]. *)
Theorem classes_of_completed_run `{Numpy} (lib : Lib) {U} (utils : U)
    (r : draws) (tr : list (event lib)) (e : env lib) :
  notebook lib utils r = (tr, Ok e) →
  let tv := t (e_data e) in
  let above x := fltb (fadd (np_mean tv) (fmul (flit 0.4) (np_std tv))) x in
  let below x := fltb x (fsub (np_mean tv) (fmul (flit 0.4) (np_std tv))) in
  1 ≤ C (e_hyper e) ≤ 3
  ∧ (∀ v, v ∈ y (e_data e) ↔ 0 ≤ v < C (e_hyper e))
  ∧ (∃ i x, tv !! i = Some x ∧ above x = true ∧ below x = false)
  ∧ (C (e_hyper e) = 3 ↔ ∃ i x, tv !! i = Some x ∧ below x = true)
  ∧ params (e_hyper e) !! "M" = Some (PList [512; C (e_hyper e)]).
Proof.
  intros Hrun tv above below. apply notebook_ok_inv in Hrun as [Hc _].
  pose proof (cell_data_y (lib := lib) r _ (c_data _ _ Hc)) as Hy.
  fold tv in Hy.
  pose proof (cell_params_cases (lib := lib) (y (e_data e))) as Hp.
  pose proof (c_params _ _ Hc) as Hh.
  destruct (cell_params lib (y (e_data e))) as [tr' [h|err]]; [|done].
  injection Hh as ->.
  destruct Hp as (_ & x0 & l0 & Hyl & HC & Hsize & HM).
  set (ymax := foldl Z.max x0 l0) in *.
  assert (∀ v, v ∈ y (e_data e) → 0 ≤ v ≤ 2) as Hrange.
  { intros v Hv. rewrite Hy in Hv.
    apply classify_range in Hv as [-> | [-> | ->]]; lia. }
  assert (Forall (λ v, 0 ≤ v) (x0 :: l0)) as Hpos.
  { apply Forall_forall. intros v Hv. rewrite <- Hyl in Hv.
    by destruct (Hrange v Hv). }
  assert (0 ≤ ymax ≤ 2) as Hmax.
  { apply Hrange. rewrite Hyl. apply foldl_max_elem. }
  assert (∀ v, v ∈ y (e_data e) → v ≤ ymax) as Hle.
  { intros v Hv. rewrite Hyl in Hv.
    pose proof (foldl_max_ge x0 l0) as [Hx Hl]. fold ymax in Hx, Hl.
    apply elem_of_cons in Hv as [->|Hv]; [done|].
    rewrite Forall_forall in Hl. by apply Hl. }
  assert (∀ v, 0 ≤ v ≤ ymax → v ∈ y (e_data e)) as Hfull.
  { rewrite Hyl. apply (unique_size_full x0 l0 Hpos). fold ymax.
    rewrite <- Hyl. lia. }
  assert (∀ i v, y (e_data e) !! i = Some v →
            ∃ x, tv !! i = Some x
                 ∧ v = if below x then 2 else if above x then 0 else 1)
    as Hlabel.
  { intros i v Hi. rewrite Hy in Hi.
    assert (i < length tv)%nat as Hlt.
    { rewrite <- classify_length. by eapply lookup_lt_Some. }
    destruct (lookup_lt_is_Some_2 _ _ Hlt) as [x Hx].
    exists x. split; [done|].
    rewrite (classify_lookup tv i x Hx) in Hi. by injection Hi as <-. }
  split_and!; try lia.
  - intros v. split; [intros Hv; specialize (Hrange v Hv);
                      specialize (Hle v Hv); lia|].
    intros Hv. apply Hfull. lia.
  - assert (0 ∈ y (e_data e)) as (i & Hi)%list_elem_of_lookup
      by (apply Hfull; lia).
    destruct (Hlabel i 0 Hi) as (x & Hx & Hv). exists i, x.
    split; [done|]. unfold above, below in *.
    by repeat case_match.
  - split.
    + intros HC3.
      assert (2 ∈ y (e_data e)) as (i & Hi)%list_elem_of_lookup
        by (apply Hfull; lia).
      destruct (Hlabel i 2 Hi) as (x & Hx & Hv). exists i, x.
      split; [done|]. by repeat case_match.
    + intros (i & x & Hx & Hb).
      assert (2 ∈ y (e_data e)) as Hin.
      { rewrite Hy. apply list_elem_of_lookup. exists i.
        rewrite (classify_lookup tv i x Hx). fold (below x). by rewrite Hb. }
      specialize (Hle 2 Hin). lia.
  - done.
Qed.

Lemma classes_of_completed_run_witness :
  notebook Qmodel.lib () Qmodel.sample
  = (Qmodel.sample_trace, Ok Qmodel.sample_env)
  ∧ 1 ≤ C (e_hyper Qmodel.sample_env) ≤ 3.
Proof.
  split; [exact sample_run|].
  exact (proj1 (classes_of_completed_run Qmodel.lib () Qmodel.sample
                  Qmodel.sample_trace Qmodel.sample_env sample_run)).
Defined.


(** ** The parameter dictionary *)

(** X6 — When cell 7 completes, the dictionary holds the seventeen keys it
    assigns, each once: reading [params['batch_size']] back never raises
    [KeyError] and gives 100, [decay_steps] is the float
    [n_train / batch_size = 50], the last entry of [M] is the class count
    [C], there is one filter count, one polynomial order and one pooling
    size per convolutional layer, and the pooling sizes multiply to [2^3],
    the three coarsening levels of cell 5. *)
Theorem params_dictionary `{Numpy} (lib : Lib) (yd : list Z)
    (tr : list (event lib)) (h : hyper) :
  cell_params lib yd = (tr, Ok h) →
  tr = []
  ∧ size (params h) = 17%nat
  ∧ getitem (lib := lib) (params h) "batch_size" = ([], Ok (PInt 100))
  ∧ (∃ q, params h !! "decay_steps" = Some (PFloat q)
          ∧ (q == 50)%Q ∧ (q * 100 == inject_Z n_train)%Q)
  ∧ params h !! "M" = Some (PList [512; C h])
  ∧ C h = Z.of_nat (length (Py.np_unique yd))
  ∧ (∃ F1 F2 K1 K2 p1 p2,
       params h !! "F" = Some (PList [F1; F2])
       ∧ params h !! "K" = Some (PList [K1; K2])
       ∧ params h !! "p" = Some (PList [p1; p2])
       ∧ p1 * p2 = 2 ^ 3)
  ∧ getitem (lib := lib) (params h) "utils"
    = ([], Err (KeyError "utils")).
Proof.
  intros Hrun.
  pose proof (class_count_checked (lib := lib) yd h) as HC.
  rewrite Hrun in HC. specialize (HC eq_refl).
  unfold cell_params, np_max, py_assert, getitem, bind, ret, raise in Hrun.
  destruct yd as [|x l]; cbv beta iota zeta in Hrun; [done|].
  destruct (foldl Z.max x l + 1 =? Z.of_nat (length (Py.np_unique (x :: l))));
    cbv beta iota zeta in Hrun; [|done].
  rewrite !lookup_insert_ne, lookup_insert_eq in Hrun by done.
  cbn [truediv Z.eqb ret app] in Hrun. injection Hrun as <- <-.
  cbn [params C] in *. unfold getitem.
  split_and!.
  - done.
  - rewrite !map_size_insert_None; [done|..];
      by rewrite ?lookup_insert_ne by done.
  - by rewrite !lookup_insert_ne, lookup_insert_eq by done.
  - eexists. split; [by rewrite lookup_insert_eq|]. split; reflexivity.
  - by rewrite !lookup_insert_ne, lookup_insert_eq by done.
  - done.
  - exists 32, 64, 20, 20, 4, 2. split_and!; try reflexivity;
      by rewrite !lookup_insert_ne, lookup_insert_eq by done.
  - by rewrite !lookup_insert_ne by done.
Qed.

Lemma params_dictionary_witness :
  let h := match (cell_params Qmodel.lib [2; 1; 0; 0]).2 with
           | Ok h => h
           | Err _ => {| C := 0; params := ∅ |}
           end in
  cell_params Qmodel.lib [2; 1; 0; 0] = ([], Ok h)
  ∧ C h = 3
  ∧ getitem (lib := Qmodel.lib) (params h) "batch_size" = ([], Ok (PInt 100)).
Proof.
  intros h.
  assert (cell_params Qmodel.lib [2; 1; 0; 0] = ([], Ok h)) as Hrun
    by reflexivity.
  split; [exact Hrun|]. split; [reflexivity|].
  destruct (params_dictionary Qmodel.lib [2; 1; 0; 0] [] h Hrun)
    as (_ & _ & Hbatch & _).
  exact Hbatch.
Defined.


(** ** Order and stopping places in every run *)

(** Looks for an event in a trace built call after call. *)
Ltac find_event :=
  repeat first
    [ solve [ apply elem_of_app; right; repeat constructor ]
    | apply elem_of_app; left ].

(** X7 — In every run, also one that fails later, [model.evaluate] is
    called only after [model.fit] has returned, on the very object that
    [models.cgcnn] returned: an untrained model is never evaluated. *)
Theorem evaluate_after_fit `{Numpy} (lib : Lib) {U} (utils : U) (r : draws) :
  ∀ tr out, notebook lib utils r = (tr, out) →
    ∀ mdl Xt yt o, Ev (ModelEvaluate mdl Xt yt) o ∈ tr →
      ∃ before rest Xa ya Xv yv curves Ls ps,
        tr = before ++ Ev (ModelEvaluate mdl Xt yt) o :: rest
        ∧ returned (ModelFit mdl Xa ya Xv yv) ∈ before
        ∧ fit lib mdl Xa ya Xv yv = Returned curves
        ∧ returned (ModelsCgcnn Ls ps) ∈ before
        ∧ cgcnn lib Ls ps = Returned mdl.
Proof.
  all_runs; subst Post; cbv beta; intros mdl Xt yt o Hin.
  all: in_run Hin.
  all: do 9 eexists; split_and!;
    [ first [ reflexivity | rewrite <- app_assoc; reflexivity ]
    | find_event | eassumption | find_event | eassumption ].
Qed.

Lemma evaluate_after_fit_witness :
  let e := Qmodel.sample_env in
  let call :=
    ModelEvaluate (model (e_trained e)) (perm_X_test (e_pyramid e))
      (y_test (e_split e)) in
  notebook Qmodel.lib () Qmodel.sample = (trace_of e, Ok e)
  ∧ returned call ∈ trace_of e
  ∧ ∃ Xa ya Xv yv curves,
      fit Qmodel.lib (model (e_trained e)) Xa ya Xv yv = Returned curves.
Proof.
  intros e call.
  assert (notebook Qmodel.lib () Qmodel.sample = (trace_of e, Ok e)) as Hrun.
  { destruct (notebook_ok_inv () Qmodel.sample _ _ sample_run) as [_ Htr].
    pose proof sample_run as Hr. rewrite Htr in Hr at 1. exact Hr. }
  assert (returned call ∈ trace_of e) as Hin.
  { apply elem_of_trace_of. do 8 right. apply list_elem_of_here. }
  split; [exact Hrun|]. split; [exact Hin|].
  destruct (evaluate_after_fit Qmodel.lib () Qmodel.sample (trace_of e)
              (Ok e) Hrun _ _ _ _ Hin)
    as (_ & _ & Xa & ya & Xv & yv & curves & _ & _ & _ & _ & Hfit & _).
  by exists Xa, ya, Xv, yv, curves.
Defined.

(** X8 — Where the script's own checks stop it.  When the shape assertion
    fails the calls made are those of cell 2 and the two graph
    constructions, and nothing was coarsened.  When the class-count
    assertion fails, or [y.max()] raises on an empty array, the whole graph
    part has already run: the calls of cells 2 to 5, then one
    [graph.laplacian] call for each graph that [coarsening.coarsen]
    returned, in order, then [graph.plot_spectrum] on their results.  No
    call raised, the check comes after the Laplacians, and no model was
    created. *)
Theorem where_assertions_stop `{Numpy} (lib : Lib) {U} (utils : U) (r : draws) :
  ∀ tr out, notebook lib utils r = (tr, out) →
    (out = Err (AssertionError AssertShape) →
       (∃ dt dist0 idx0,
          (cell_data lib r).2 = Ok dt
          ∧ tr = data_trace dt
                 ++ [ returned (GraphDistanceScipySpatial
                                  (np_T (X_train (cell_split (X dt) (y dt))))
                                  10 "euclidean");
                      returned (GraphAdjacency dist0 idx0) ])
       ∧ kinds tr = [KPltFigure; KPltPlot; KPrint; KDistance; KAdjacency]
       ∧ quiet tr)
    ∧ (out = Err (AssertionError AssertClasses) ∨ out = Err ValueError →
         ∃ dt dist0 idx0 A1 gs pm Ls,
           let s := cell_split (X dt) (y dt) in
           (cell_data lib r).2 = Ok dt
           ∧ coarsen lib A1 3 false = Returned (gs, pm)
           ∧ Forall2 (λ A La, laplacian lib A true = Returned La) gs Ls
           ∧ tr = data_trace dt
                  ++ [ returned (GraphDistanceScipySpatial (np_T (X_train s))
                                   10 "euclidean");
                       returned (GraphAdjacency dist0 idx0);
                       returned (PrintGraphSize d (nnz lib A1));
                       returned (PltSpy A1 2 "black");
                       returned (CoarseningCoarsen A1 3 false);
                       returned (CoarseningPermData (X_train s) pm);
                       returned (CoarseningPermData (X_val s) pm);
                       returned (CoarseningPermData (X_test s) pm) ]
                  ++ map (λ A, returned (GraphLaplacian A true)) gs
                  ++ [ returned (GraphPlotSpectrum Ls) ]
           ∧ kinds tr
             = [KPltFigure; KPltPlot; KPrint; KDistance; KAdjacency; KPrint;
                KPltSpy; KCoarsen; KPermData; KPermData; KPermData]
               ++ replicate (length gs) KLaplacian ++ [KPlotSpectrum]
           ∧ quiet tr
           ∧ ∀ ev, ev ∈ tr → module_of (kind_of (ev_call ev)) ≠ Models).
Proof.
  all_runs; subst Post; cbv beta; split.
  all: try (intros [= ?]; fail).
  all: try (intros [[= ?]|[= ?]]; fail).
  all: intros _.
  all: first
    [ split_and!;
      [ do 3 eexists; split; [eassumption|];
        rewrite <- ?app_assoc; reflexivity
      | reflexivity
      | solve [quiet_trace] ]
    | do 7 eexists; cbv zeta; split_and!;
      [ eassumption
      | eassumption
      | eassumption
      | rewrite <- ?app_assoc; reflexivity
      | rewrite !kinds_app, ?kinds_laplacians;
        cbn [kinds map data_trace returned ev_call kind_of app];
        rewrite <- ?app_assoc; reflexivity
      | solve [quiet_trace]
      | intros ev Hin; in_run Hin; done ] ].
Qed.

Lemma where_assertions_stop_witness :
  (notebook Qmodel.lib_bad_shape () Qmodel.sample).2
  = Err (AssertionError AssertShape)
  ∧ kinds (notebook Qmodel.lib_bad_shape () Qmodel.sample).1
    = [KPltFigure; KPltPlot; KPrint; KDistance; KAdjacency]
  ∧ (notebook Qmodel.lib () Qmodel.flat_sample).2
    = Err (AssertionError AssertClasses)
  ∧ ∃ gs : list (Z * Z),
      length gs = 4%nat
      ∧ kinds (notebook Qmodel.lib () Qmodel.flat_sample).1
        = [KPltFigure; KPltPlot; KPrint; KDistance; KAdjacency; KPrint;
           KPltSpy; KCoarsen; KPermData; KPermData; KPermData]
          ++ replicate (length gs) KLaplacian ++ [KPlotSpectrum].
Proof.
  assert ((notebook Qmodel.lib_bad_shape () Qmodel.sample).2
          = Err (AssertionError AssertShape)) as Hout by reflexivity.
  assert ((notebook Qmodel.lib () Qmodel.flat_sample).2
          = Err (AssertionError AssertClasses)) as Hout' by reflexivity.
  split; [exact Hout|].
  destruct (where_assertions_stop Qmodel.lib_bad_shape () Qmodel.sample
              (notebook Qmodel.lib_bad_shape () Qmodel.sample).1
              (notebook Qmodel.lib_bad_shape () Qmodel.sample).2
              (surjective_pairing _)) as [Hshape _].
  split; [exact (proj1 (proj2 (Hshape Hout)))|].
  split; [exact Hout'|].
  destruct (where_assertions_stop Qmodel.lib () Qmodel.flat_sample
              (notebook Qmodel.lib () Qmodel.flat_sample).1
              (notebook Qmodel.lib () Qmodel.flat_sample).2
              (surjective_pairing _)) as [_ Hclasses].
  destruct (Hclasses (or_introl Hout'))
    as (dt & dist0 & idx0 & A1 & gs & pm & Ls & _ & Hco & _ & _ & Hk & _).
  exists gs. split; [|exact Hk].
  apply (f_equal (λ o, match o with
                       | Returned (g, _) => length g
                       | Raises _ => 0%nat
                       end)) in Hco.
  exact (eq_sym Hco).
Defined.

(** ** The Laplacian comprehension *)

Section Comprehension.
Context `{Numpy} {lib : Lib}.

Lemma comprehension_returns {S T} (c : S → call lib) (f : S → outcome T)
    (l : list S) (bs : list T) :
  Forall2 (λ a b, f a = Returned b) l bs →
  comprehension (λ a, invoke (c a) (f a)) l
  = (map (λ a, Ev (c a) None) l, Ok bs).
Proof.
  induction 1 as [|a b l bs Ha _ IH]; [done|].
  cbn [comprehension map]. rewrite Ha, IH. cbn [invoke bind ret app].
  by rewrite app_nil_r.
Qed.

Lemma comprehension_raises {S T} (c : S → call lib) (f : S → outcome T)
    (pre post : list S) (a : S) (bs : list T) (msg : string) :
  Forall2 (λ a b, f a = Returned b) pre bs →
  f a = Raises msg →
  comprehension (λ a, invoke (c a) (f a)) (pre ++ a :: post)
  = (map (λ a, Ev (c a) None) pre ++ [Ev (c a) (Some msg)],
     Err (LibError msg)).
Proof.
  intros Hpre Ha. induction Hpre as [|x b pre bs Hx _ IH].
  - cbn [app comprehension map]. rewrite Ha. reflexivity.
  - cbn [app comprehension map]. rewrite Hx. cbn [invoke bind].
    rewrite IH. reflexivity.
Qed.

End Comprehension.

(** X9 — The list comprehension of cell 6 stops at the first graph whose
    Laplacian raises: the graphs before it have had their Laplacian
    computed, in order, the graphs after it are never passed to
    [graph.laplacian], [graph.plot_spectrum] is not called, and the
    cell ends with that exception. *)
Theorem laplacians_stop_at_first_failure `{Numpy} (lib : Lib)
    (pre post : list (sparse lib)) (a : sparse lib) (Ls : list (sparse lib))
    (msg : string) :
  Forall2 (λ A La, laplacian lib A true = Returned La) pre Ls →
  laplacian lib a true = Raises msg →
  cell_laplacian (lib := lib) (pre ++ a :: post)
  = (map (λ A, returned (GraphLaplacian A true)) pre
     ++ [Ev (GraphLaplacian a true) (Some msg)],
     Err (LibError msg)).
Proof.
  intros Hpre Ha. unfold cell_laplacian.
  rewrite (comprehension_raises (λ A, GraphLaplacian A true)
             (λ A, laplacian lib A true) pre post a Ls msg Hpre Ha).
  reflexivity.
Qed.

Lemma laplacians_stop_at_first_failure_witness :
  let lib := Qmodel.lib_small_graph in
  Forall2 (λ A La, laplacian lib A true = Returned La)
    [(100, 100); (50, 50); (25, 25)] [(100, 100); (50, 50); (25, 25)]
  ∧ laplacian lib (12, 12) true = Raises "graph too small"
  ∧ cell_laplacian (lib := lib) [(100, 100); (50, 50); (25, 25); (12, 12); (6, 6)]
    = ([ returned (GraphLaplacian (lib := lib) (100, 100) true);
         returned (GraphLaplacian (lib := lib) (50, 50) true);
         returned (GraphLaplacian (lib := lib) (25, 25) true);
         Ev (GraphLaplacian (lib := lib) (12, 12) true)
           (Some "graph too small") ],
       Err (LibError "graph too small")).
Proof.
  intros lib.
  assert (Forall2 (λ A La, laplacian lib A true = Returned La)
            [(100, 100); (50, 50); (25, 25)]
            [(100, 100); (50, 50); (25, 25)]) as Hpre.
  { repeat constructor. }
  assert (laplacian lib (12, 12) true = Raises "graph too small") as Ha.
  { reflexivity. }
  split; [exact Hpre|]. split; [exact Ha|].
  exact (laplacians_stop_at_first_failure lib
           [(100, 100); (50, 50); (25, 25)] [(6, 6)] (12, 12)
           [(100, 100); (50, 50); (25, 25)] "graph too small" Hpre Ha).
Defined.

(** ** Runs that reach the end *)

Section Forward.
Context `{Numpy} {lib : Lib}.
Local Abbreviation matrix := (list (list F)).

Lemma bind_run {S T} (m : M lib S) (f : S → M lib T) tr1 a tr2 out :
  m = (tr1, Ok a) → f a = (tr2, out) → bind m f = (tr1 ++ tr2, out).
Proof. intros -> Hf. unfold bind. by rewrite Hf. Qed.

Lemma bind_run_silent {S T} (m : M lib S) (f : S → M lib T) a tr out :
  m = ([], Ok a) → f a = (tr, out) → bind m f = (tr, out).
Proof. intros Hm Hf. by rewrite (bind_run m f [] a tr out Hm Hf). Qed.

Lemma cell_data_completes (r : draws) (dt : data) :
  (cell_data lib r).2 = Ok dt → cell_data lib r = (data_trace dt, Ok dt).
Proof.
  intros Hd. destruct (cell_data_run (lib := lib) r) as (dt' & Hdt & Htr).
  rewrite Hd in Hdt. injection Hdt as <-.
  by rewrite (surjective_pairing (cell_data lib r)), Htr, Hd.
Qed.

Lemma cell_params_completes (y : list Z) (h : hyper) :
  (cell_params lib y).2 = Ok h → cell_params lib y = ([], Ok h).
Proof.
  intros Hh. pose proof (cell_params_cases (lib := lib) y) as Hc.
  destruct (cell_params lib y) as [tr [h'|x]]; cbn [snd] in Hh; [|done].
  destruct Hc as [-> _]. by injection Hh as ->.
Qed.

Lemma cell_graph_completes (s : split) (g : knn lib) :
  distance_scipy_spatial lib (np_T (X_train s)) 10 "euclidean"
  = Returned (dist g, idx g) →
  (∃ A0, adjacency lib (dist g) (idx g) = Returned A0
         ∧ A g = astype_float32 lib A0) →
  shape lib (A g) = (d, d) →
  cell_graph (X_train s) = (graph_trace s g, Ok g).
Proof.
  intros Hdist (A0 & Hadj & HA) Hshape. unfold cell_graph.
  rewrite Hdist. cbn [invoke bind]. rewrite Hadj. cbn [invoke bind].
  rewrite <- HA, Hshape. destruct g. reflexivity.
Qed.

Lemma cell_coarsen_completes (Ag : sparse lib) (s : split) (p : pyramid lib) :
  coarsen lib Ag 3 false = Returned (graphs p, perm p) →
  perm_data lib (X_train s) (perm p) = Returned (perm_X_train p) →
  perm_data lib (X_val s) (perm p) = Returned (perm_X_val p) →
  perm_data lib (X_test s) (perm p) = Returned (perm_X_test p) →
  cell_coarsen Ag s
  = ([ returned (CoarseningCoarsen Ag 3 false);
       returned (CoarseningPermData (X_train s) (perm p));
       returned (CoarseningPermData (X_val s) (perm p));
       returned (CoarseningPermData (X_test s) (perm p)) ], Ok p).
Proof.
  intros Hco H1 H2 H3. unfold cell_coarsen.
  rewrite Hco. cbn [invoke bind]. rewrite H1. cbn [invoke bind].
  rewrite H2. cbn [invoke bind]. rewrite H3. destruct p. reflexivity.
Qed.

Lemma cell_laplacian_completes (gs Ls : list (sparse lib)) :
  Forall2 (λ A La, laplacian lib A true = Returned La) gs Ls →
  plot_spectrum lib Ls = Returned () →
  cell_laplacian gs
  = (map (λ A, returned (GraphLaplacian A true)) gs
     ++ [ returned (GraphPlotSpectrum Ls) ], Ok Ls).
Proof.
  intros Hall Hspec. unfold cell_laplacian.
  rewrite (comprehension_returns (λ A, GraphLaplacian A true)
             (λ A, laplacian lib A true) gs Ls Hall).
  cbn [bind]. rewrite Hspec. cbn [bind invoke ret]. by rewrite ?app_nil_r.
Qed.

Lemma cell_fit_completes Ls ps (Xtr : matrix) ytr (Xv : matrix) yv
    (m : trained lib) :
  cgcnn lib Ls ps = Returned (model m) →
  fit lib (model m) Xtr ytr Xv yv = Returned (accuracy m, loss m, t_step m) →
  cell_fit Ls ps Xtr ytr Xv yv
  = ([ returned (ModelsCgcnn Ls ps);
       returned (ModelFit (model m) Xtr ytr Xv yv) ], Ok m).
Proof.
  intros Hc Hf. unfold cell_fit. rewrite Hc. cbn [invoke bind].
  rewrite Hf. destruct m. reflexivity.
Qed.

Lemma cell_evaluate_completes mdl (Xte : matrix) yte (rs : res_t lib) :
  evaluate lib mdl Xte yte = Returned rs →
  cell_evaluate mdl Xte yte
  = ([ returned (ModelEvaluate mdl Xte yte);
       returned (PrintRes0 (res_item0 lib rs)) ], Ok rs).
Proof. intros He. unfold cell_evaluate. by rewrite He. Qed.

End Forward.

(** X10 — The script reaches its end exactly when every call into the
    library returns and its two checks pass, and the calls it has then
    made are those of the eleven cells in order: the conditions read off a
    completed run are also enough for the run to complete. *)
Theorem completes_iff `{Numpy} (lib : Lib) {U} (utils : U) (r : draws)
    (tr : list (event lib)) (e : env lib) :
  notebook lib utils r = (tr, Ok e) ↔ completes r e ∧ tr = trace_of e.
Proof.
  split; [apply notebook_ok_inv|]. intros [Hc ->].
  destruct Hc as [Hdata Hsplit Hdist Hadj Hshape Hco Hp1 Hp2 Hp3 Hlap Hspec
                    Hpar Hcg Hfit Hev].
  unfold notebook, trace_of.
  eapply bind_run; [by apply cell_data_completes|]. cbv beta zeta.
  rewrite <- Hsplit.
  eapply bind_run; [by apply cell_graph_completes|].
  eapply bind_run; [by apply cell_coarsen_completes|].
  eapply bind_run; [by apply cell_laplacian_completes|].
  eapply bind_run_silent; [by apply cell_params_completes|].
  eapply bind_run; [by apply cell_fit_completes|].
  eapply bind_run; [apply cell_curves_run|].
  eapply bind_run; [reflexivity|].
  rewrite (cell_evaluate_completes _ _ _ _ Hev). cbn [bind ret].
  rewrite app_nil_r. destruct e. reflexivity.
Qed.

Lemma completes_iff_witness :
  completes Qmodel.sample Qmodel.sample_env
  ∧ notebook Qmodel.lib () Qmodel.sample
    = (trace_of Qmodel.sample_env, Ok Qmodel.sample_env).
Proof.
  assert (completes Qmodel.sample Qmodel.sample_env) as Hc.
  { exact (proj1 (notebook_ok_inv () Qmodel.sample _ _ sample_run)). }
  split; [exact Hc|].
  exact (proj2 (completes_iff Qmodel.lib () Qmodel.sample
                  (trace_of Qmodel.sample_env) Qmodel.sample_env)
           (conj Hc eq_refl)).
Defined.
